(** * chatmaild.doveauth: the dovecot authentication bridge

    A shallow embedding of [chatmaild/doveauth.py]: the escaped-field
    tokenizer [split_and_unescape], the account-creation policy
    [is_allowed_to_create], the lookups [lookup_userdb] and [lookup_passdb],
    and the dict-protocol handlers [handle_lookup], [handle_iterate] and
    [iter_userdb] of [AuthDictProxy].

    Python strings are [string]s, Python ints are [Z], a Python [dict] is an
    association list in insertion order, the mailbox directory is a finite
    map from entry names to directories, and the functions that touch the
    file system or the log run in a state monad over [World] in which a
    Python exception is an explicit outcome. *)

From Stdlib Require Import ZArith Ascii String.
From stdpp Require Import gmap strings list.

Local Open Scope Z_scope.
Local Arguments String.append !_ _ : simpl nomatch.

(** ** Characters the protocol gives a meaning to *)

Definition dquote : ascii := "034"%char.
Definition backslash : ascii := "\"%char.
Definition at_sign : ascii := "@"%char.
Definition slash : ascii := "/"%char.
Definition newline : ascii := "010"%char.
Definition tab : ascii := "009"%char.

(** ** Python built-ins used by the module *)

Module Py.

(** Exceptions the module can raise. *)
Inductive exn : Type :=
| IndexError
| ValueError
| FileNotFoundError.

(** Outcome of evaluating an expression: a value or a raised exception. *)
Inductive result (A : Type) : Type :=
| Return (a : A)
| Raise (e : exn).
Arguments Return {A} a.
Arguments Raise {A} e.

(** [c + s] and [s + c] for a one-character string [c]. *)
Definition str1 (c : ascii) : string := String c EmptyString.
Definition snoc (s : string) (c : ascii) : string := s +:+ str1 c.

(** [len(s)] as a Python int. *)
Definition len (s : string) : Z := Z.of_nat (String.length s).

(** [c in s] for a one-character string [c]. *)
Fixpoint contains (c : ascii) (s : string) : bool :=
  match s with
  | EmptyString => false
  | String d rest => Ascii.eqb d c || contains c rest
  end.

(** Prepend a character to the first segment of a split. *)
Definition cons_head (c : ascii) (segs : list string) : list string :=
  match segs with
  | [] => [str1 c]
  | p :: ps => String c p :: ps
  end.

(** [s.split(sep)] for a one-character separator. *)
Fixpoint split (sep : ascii) (s : string) : list string :=
  match s with
  | EmptyString => [EmptyString]
  | String c rest =>
      if Ascii.eqb c sep then EmptyString :: split sep rest
      else cons_head c (split sep rest)
  end.

(** [s.split(sep, maxsplit)] for a one-character separator. *)
Fixpoint split_max (sep : ascii) (s : string) (maxsplit : nat) : list string :=
  match maxsplit with
  | O => [s]
  | S n =>
      match s with
      | EmptyString => [EmptyString]
      | String c rest =>
          if Ascii.eqb c sep then EmptyString :: split_max sep rest n
          else cons_head c (split_max sep rest maxsplit)
      end
  end.

(** [s.endswith(suffix)]. *)
Definition endswith (s suffix : string) : bool :=
  let n := String.length s in
  let m := String.length suffix in
  (m <=? n)%nat && String.eqb (String.substring (n - m) m s) suffix.

(** [sep.join(l)]. *)
Fixpoint join (sep : string) (l : list string) : string :=
  match l with
  | [] => EmptyString
  | [x] => x
  | x :: rest => x +:+ sep +:+ join sep rest
  end.

(** [l[i]]: raises [IndexError] out of range. *)
Definition index {A : Type} (l : list A) (i : nat) : result A :=
  match l !! i with
  | Some x => Return x
  | None => Raise IndexError
  end.

(** [a, b, c = l]: raises [ValueError] unless [l] has three items. *)
Definition unpack3 {A : Type} (l : list A) : result (A * A * A) :=
  match l with
  | [a; b; c] => Return (a, b, c)
  | _ => Raise ValueError
  end.

(** A Python dict with string keys and values, in insertion order. *)
Definition dict : Type := list (string * string).

(** [d[k] = v]: an existing key keeps its place, a new one goes last. *)
Fixpoint dict_set (d : dict) (k v : string) : dict :=
  match d with
  | [] => [(k, v)]
  | (k', v') :: rest =>
      if String.eqb k' k then (k, v) :: rest
      else (k', v') :: dict_set rest k v
  end.

(** [d.update(e)]. *)
Definition dict_update (d e : dict) : dict :=
  fold_left (fun acc kv => dict_set acc kv.1 kv.2) e d.

(** [dict(k1=v1, ...)]. *)
Definition dict_of (kvs : list (string * string)) : dict :=
  dict_update [] kvs.

(** [d[k]], here only read by the statements below. *)
Fixpoint dict_get (d : dict) (k : string) : option string :=
  match d with
  | [] => None
  | (k', v) :: rest => if String.eqb k' k then Some v else dict_get rest k
  end.

(** The values the variable [res] of [handle_lookup] takes. *)
Inductive value : Type :=
| VStr (s : string)
| VNone
| VDict (d : dict).

(** Truth value of [if v:]. *)
Definition truthy (v : value) : bool :=
  match v with
  | VStr EmptyString => false
  | VStr _ => true
  | VNone => false
  | VDict [] => false
  | VDict _ => true
  end.

(** A function that returns a dict or falls through with [None]. *)
Definition of_option (o : option dict) : value :=
  match o with
  | Some d => VDict d
  | None => VNone
  end.

(** What a generator has done when it stops: the items it yielded, and
    the exception that stopped it, if one did. *)
Definition generated (A : Type) : Type := (list A * option exn)%type.

(** The generator yields [x] and goes on as [g]. *)
Definition yield {A : Type} (x : A) (g : generated A) : generated A :=
  (x :: g.1, g.2).

(** [list(g)]: the items if the generator finishes, its exception
    otherwise. *)
Definition list_of {A : Type} (g : generated A) : result (list A) :=
  match g.2 with
  | None => Return g.1
  | Some e => Raise e
  end.

End Py.

Import Py.

(** ** [split_and_unescape]

    The loop of the source on its index [i], with the segment read so far
    in [out]. [s[i]] is [String.get i s], which is [None] from [len(s)]
    on. Every turn of the loop moves [i] forward, so [len(s) + 1] turns
    are enough for the loop to reach its end, and [fuel] counts them. *)

Fixpoint split_and_unescape_from (fuel : nat) (s : string) (i : nat)
    (out : string) : generated string :=
  match fuel with
  | O => yield out ([], None)
  | S fuel =>
      match String.get i s with
      | None => yield out ([], None)
      | Some c =>
          if Ascii.eqb c backslash then
            match String.get (S i) s with
            | None => ([], Some IndexError)
            | Some d => split_and_unescape_from fuel s (S (S i)) (snoc out d)
            end
          else if Ascii.eqb c dquote then
            yield out (split_and_unescape_from fuel s (S i) EmptyString)
          else split_and_unescape_from fuel s (S i) (snoc out c)
      end
  end.

Definition split_and_unescape (s : string) : generated string :=
  split_and_unescape_from (S (String.length s)) s 0 EmptyString.

(** The same loop by recursion on what is left of [s] from [i] on. *)
Fixpoint split_and_unescape_loop (s : string) (out : string)
  : generated string :=
  match s with
  | EmptyString => yield out ([], None)
  | String c rest =>
      if Ascii.eqb c backslash then
        match rest with
        | EmptyString => ([], Some IndexError)
        | String d rest' => split_and_unescape_loop rest' (snoc out d)
        end
      else if Ascii.eqb c dquote then
        yield out (split_and_unescape_loop rest EmptyString)
      else split_and_unescape_loop rest (snoc out c)
  end.

(** [s[i:]]. *)
Fixpoint string_from (i : nat) (s : string) : string :=
  match i, s with
  | O, _ => s
  | S _, EmptyString => EmptyString
  | S i, String _ rest => string_from i rest
  end.

(** ** [json.dumps] on the values [handle_lookup] serializes

    The default encoder: [ensure_ascii] escapes, [", "] between items and
    [": "] between a key and its value. *)

Module Json.

Definition hex_digit (n : nat) : ascii :=
  match n with
  | 0 => "0" | 1 => "1" | 2 => "2" | 3 => "3" | 4 => "4" | 5 => "5"
  | 6 => "6" | 7 => "7" | 8 => "8" | 9 => "9" | 10 => "a" | 11 => "b"
  | 12 => "c" | 13 => "d" | 14 => "e" | _ => "f"
  end%nat%char.

(** One character of a string, as the ASCII-only encoder writes it. *)
Definition escape_char (c : ascii) : string :=
  let n := nat_of_ascii c in
  if Ascii.eqb c backslash then String backslash (str1 backslash)
  else if Ascii.eqb c dquote then String backslash (str1 dquote)
  else if Ascii.eqb c "008" then String backslash "b"
  else if Ascii.eqb c "012" then String backslash "f"
  else if Ascii.eqb c "010" then String backslash "n"
  else if Ascii.eqb c "013" then String backslash "r"
  else if Ascii.eqb c "009" then String backslash "t"
  else if ((32 <=? n) && (n <=? 126))%nat then str1 c
  else String backslash
         ("u00" +:+ String (hex_digit (n / 16)) (str1 (hex_digit (n mod 16)))).

Fixpoint escape_string (s : string) : string :=
  match s with
  | EmptyString => EmptyString
  | String c rest => escape_char c +:+ escape_string rest
  end.

Definition dumps_str (s : string) : string :=
  String dquote (escape_string s +:+ str1 dquote).

Definition dumps_item (kv : string * string) : string :=
  dumps_str kv.1 +:+ ": " +:+ dumps_str kv.2.

Definition dumps (v : value) : string :=
  match v with
  | VStr s => dumps_str s
  | VNone => "null"
  | VDict d => "{" +:+ join ", " (map dumps_item d) +:+ "}"
  end.

End Json.

(** ** The configuration, the file system and the log *)

(** The fields of [Config] that the module reads. *)
Record Config : Type := {
  mail_domain : string;
  password_min_length : Z;
  username_min_length : Z;
  username_max_length : Z;
  mailboxes_dir : string;
}.

(** An entry of [config.mailboxes_dir]: the text of its [password] file,
    if the entry has one. *)
Record Maildir : Type := { password_file : option string }.

(** The records that [logging.warning] receives. *)
Inductive warning : Type :=
| blocked_nocreate
| password_too_short (min_length : Z)
| not_an_address (user : string)
| localpart_length (localpart : string) (min_length max_length : Z).

(** What the module reads and writes outside of its arguments:
    whether [NOCREATE_FILE] exists, the entries of the mailbox directory
    by name, the warnings logged so far, and how often [crypt.crypt] has
    drawn a salt. *)
Record World : Type := {
  nocreate_file : bool;
  mailboxes : gmap string Maildir;
  log : list warning;
  crypt_calls : nat;
}.

(** Computations of the module: they read and write the world and finish
    with a value or an exception. *)
Definition M (A : Type) : Type := World -> result A * World.

Definition ret {A : Type} (a : A) : M A := fun w => (Return a, w).

Definition bind {A B : Type} (m : M A) (k : A -> M B) : M B :=
  fun w =>
    match m w with
    | (Return a, w') => k a w'
    | (Raise e, w') => (Raise e, w')
    end.

Definition lift {A : Type} (r : result A) : M A := fun w => (r, w).

Notation "x <- m ;; k" := (bind m (fun x => k))
  (at level 100, m at next level, right associativity).

(** [os.path.exists(NOCREATE_FILE)]. *)
Definition nocreate_exists : M bool := fun w => (Return (nocreate_file w), w).

(** [logging.warning(...)]. *)
Definition warn (x : warning) : M unit :=
  fun w =>
    (Return tt,
     {| nocreate_file := nocreate_file w; mailboxes := mailboxes w;
        log := log w ++ [x]; crypt_calls := crypt_calls w |}).

(** [userdir.joinpath("password").exists()]. *)
Definition password_exists (userdir : string) : M bool :=
  fun w =>
    (Return (match mailboxes w !! userdir with
             | Some {| password_file := Some _ |} => true
             | _ => false
             end), w).

(** [userdir.joinpath("password").read_text()]. *)
Definition password_read_text (userdir : string) : M string :=
  fun w =>
    (match mailboxes w !! userdir with
     | Some {| password_file := Some text |} => Return text
     | _ => Raise FileNotFoundError
     end, w).

(** [config.mailboxes_dir.iterdir()], names only; the order is the file
    system's. *)
Definition iterdir_names : M (list string) :=
  fun w => (Return (map_to_list (mailboxes w)).*1, w).

(** Modelled from the spec: [Config.get_user_maildir] is not among the
    sources. Each address maps to a directory of the mailbox directory,
    a pure function of the address and the configuration; the directory
    is given by its entry name. An address with a [/] or a NUL character
    cannot name an entry of a directory, and the entries of the model are
    those of the other addresses. *)
Definition get_user_maildir (config : Config) (addr : string) : string := addr.

(** Modelled from the spec: [Config.get_user_dict] is not among the
    sources. The attributes derived from the address: [addr], the [home]
    path, and the owner identifiers, both the service account name (the
    tests read them as [uid] and [gid], both [vmail]); the [password]
    when one is passed. *)
Definition get_user_dict (config : Config) (addr : string)
    (enc_password : option string) : dict :=
  let res :=
    dict_of [("addr", addr);
             ("home", mailboxes_dir config +:+ "/" +:+ get_user_maildir config addr);
             ("uid", "vmail"); ("gid", "vmail")] in
  match enc_password with
  | Some enc => dict_set res "password" enc
  | None => res
  end.

(** Modelled from the spec: [Config.set_user_password] is not among the
    sources. Creation is an atomic create-if-absent of the password file
    at the derived path: it writes the hash when the address has no
    password file and leaves an existing one as it is. *)
Definition set_user_password (config : Config) (addr enc_password : string)
  : M unit :=
  fun w =>
    let userdir := get_user_maildir config addr in
    match mailboxes w !! userdir with
    | Some {| password_file := Some _ |} => (Return tt, w)
    | _ =>
        (Return tt,
         {| nocreate_file := nocreate_file w;
            mailboxes := <[userdir := {| password_file := Some enc_password |}]>
                           (mailboxes w);
            log := log w; crypt_calls := crypt_calls w |})
    end.

(** ** The functions of [doveauth.py] *)

Section Doveauth.

(** [crypt.crypt(password, crypt.METHOD_SHA512)] on its [n]-th call: the
    library draws a fresh salt on every call. The call is taken to return
    its hash: [crypt.crypt] raises [ValueError] on a password that holds a
    NUL character, and what is stated of a creation is stated of the calls
    in which the hash is returned. *)
Variable crypt_sha512 : nat -> string -> string.

Definition encrypt_password (password : string) : M string :=
  fun w =>
    let passhash := crypt_sha512 (crypt_calls w) password in
    (Return ("{SHA512-CRYPT}" +:+ passhash),
     {| nocreate_file := nocreate_file w; mailboxes := mailboxes w;
        log := log w; crypt_calls := S (crypt_calls w) |}).

Definition is_allowed_to_create (config : Config)
    (user cleartext_password : string) : M bool :=
  blocked <- nocreate_exists ;;
  if blocked then
    _ <- warn blocked_nocreate ;; ret false
  else if len cleartext_password <? password_min_length config then
    _ <- warn (password_too_short (password_min_length config)) ;; ret false
  else
    match split at_sign user with
    | [localpart; domain] =>
        if String.eqb localpart "echo" then ret false
        else if (len localpart >? username_max_length config)
                || (len localpart <? username_min_length config) then
          _ <- warn (localpart_length localpart (username_min_length config)
                       (username_max_length config)) ;;
          ret false
        else ret true
    | _ => _ <- warn (not_an_address user) ;; ret false
    end.

Definition lookup_userdb (config : Config) (user : string) : M dict :=
  let userdir := get_user_maildir config user in
  present <- password_exists userdir ;;
  if present then
    text <- password_read_text userdir ;;
    ret (dict_update (dict_of [("addr", user); ("password", text)])
           (get_user_dict config user None))
  else ret [].

Definition lookup_passdb (config : Config) (user cleartext_password : string)
  : M (option dict) :=
  userdata <- lookup_userdb config user ;;
  if truthy (VDict userdata) then ret (Some userdata)
  else
    allowed <- is_allowed_to_create config user cleartext_password ;;
    if negb allowed then ret None
    else
      enc_password <- encrypt_password cleartext_password ;;
      _ <- set_user_password config user enc_password ;;
      ret (Some (get_user_dict config user (Some enc_password))).

(** [f"{reply_command}{json_res}\n"]. *)
Definition reply (reply_command : string) (res : value) : string :=
  let json_res := if truthy res then Json.dumps res else EmptyString in
  reply_command +:+ json_res +:+ str1 newline.

Definition handle_lookup (config : Config) (parts : list string) : M string :=
  keyname <- lift (index parts 0) ;;
  unpacked <- lift (unpack3 (split_max slash keyname 2)) ;;
  let '(namespace, type, args) := unpacked in
  args <- lift (list_of (split_and_unescape args)) ;;
  if String.eqb namespace "shared" then
    if String.eqb type "userdb" then
      user <- lift (index args 0) ;;
      res <- (if endswith user (String at_sign (mail_domain config))
              then d <- lookup_userdb config user ;; ret (VDict d)
              else ret (VStr EmptyString)) ;;
      ret (reply (if truthy res then "O" else "N") res)
    else if String.eqb type "passdb" then
      user <- lift (index args 1) ;;
      res <- (if endswith user (String at_sign (mail_domain config))
              then
                cleartext_password <- lift (index args 0) ;;
                r <- lookup_passdb config user cleartext_password ;;
                ret (of_option r)
              else ret (VStr EmptyString)) ;;
      ret (reply (if truthy res then "O" else "N") res)
    else ret (reply "F" (VStr EmptyString))
  else ret (reply "F" (VStr EmptyString)).

Definition iter_userdb (config : Config) : M (list string) :=
  getuserpaths <- iterdir_names ;;
  ret (filter (fun name => contains at_sign name = true) getuserpaths).

(** The line that [handle_iterate] writes for one address. *)
Definition iterate_line (user : string) : string :=
  "Oshared/userdb/" +:+ user +:+ String tab (str1 newline).

(** [None] is the function falling through without a [return]. *)
Definition handle_iterate (config : Config) (parts : list string)
  : M (option string) :=
  prefix <- lift (index parts 2) ;;
  if String.eqb prefix "shared/userdb/" then
    users <- iter_userdb config ;;
    let result := join EmptyString (iterate_line <$> users) in
    ret (Some (result +:+ str1 newline))
  else ret None.

End Doveauth.

(** Calls of [lookup_passdb] for one address, one after the other: the
    results and the world they leave. *)
Fixpoint run_calls (crypt_sha512 : nat -> string -> string) (config : Config)
    (user : string) (passwords : list string) (w : World)
  : list (result (option dict)) * World :=
  match passwords with
  | [] => ([], w)
  | pw :: rest =>
      let '(r, w') := lookup_passdb crypt_sha512 config user pw w in
      let '(rs, w'') := run_calls crypt_sha512 config user rest w' in
      (r :: rs, w'')
  end.

(** ** Calls of [lookup_passdb] that race

    A call first checks (the lookup and the policy, up to the early
    returns) and then creates (hashing, the write and the record it
    returns). Another call can run between the two. *)

Inductive racer : Type :=
| Calling (user cleartext_password : string)
| Creating (user cleartext_password : string)
| Returned (res : option dict)
| Failed (e : exn).

Section Racing.

Variable crypt_sha512 : nat -> string -> string.
Variable config : Config.

(** [lookup_passdb] up to the point where it has decided to create. *)
Definition lookup_passdb_check (user cleartext_password : string) : M racer :=
  userdata <- lookup_userdb config user ;;
  if truthy (VDict userdata) then ret (Returned (Some userdata))
  else
    allowed <- is_allowed_to_create config user cleartext_password ;;
    if negb allowed then ret (Returned None)
    else ret (Creating user cleartext_password).

(** [lookup_passdb] from there on. *)
Definition lookup_passdb_create (user cleartext_password : string) : M racer :=
  enc_password <- encrypt_password crypt_sha512 cleartext_password ;;
  _ <- set_user_password config user enc_password ;;
  ret (Returned (Some (get_user_dict config user (Some enc_password)))).

Definition racer_step (r : racer) : M racer :=
  match r with
  | Calling user pw => lookup_passdb_check user pw
  | Creating user pw => lookup_passdb_create user pw
  | Returned _ | Failed _ => ret r
  end.

(** The racers of [pool] move in the order of [schedule]. *)
Fixpoint run_schedule (schedule : list nat) (pool : list racer) (w : World)
  : list racer * World :=
  match schedule with
  | [] => (pool, w)
  | i :: rest =>
      match pool !! i with
      | None => run_schedule rest pool w
      | Some r =>
          match racer_step r w with
          | (Return r', w') => run_schedule rest (<[i := r']> pool) w'
          | (Raise e, w') => run_schedule rest (<[i := Failed e]> pool) w'
          end
      end
  end.

End Racing.

(** ** What the statements below speak of *)

(** The password hash stored for an address, if it has one. *)
Definition stored_password (config : Config) (w : World) (addr : string)
  : option string :=
  match mailboxes w !! get_user_maildir config addr with
  | Some d => password_file d
  | None => None
  end.

(** The record a racer returns when it has run its creation: the one of
    the hash it computed itself. *)
Definition own_record (crypt_sha512 : nat → string → string) (config : Config)
    (user pw : string) (r : racer) : Prop :=
  ∃ n, r = Returned (Some (get_user_dict config user
                             (Some ("{SHA512-CRYPT}" +:+ crypt_sha512 n pw)))).

(** Where a call for [user] with [pw] can stand in the world [w]: not
    started, between its check and its creation, returned with nothing,
    returned with the record of the hash that is stored, or returned
    with the record of its own hash. *)
Definition racer_outcome (crypt_sha512 : nat → string → string)
    (config : Config) (user pw : string) (w : World) (r : racer) : Prop :=
  r = Calling user pw
  ∨ r = Creating user pw
  ∨ r = Returned None
  ∨ (∃ hash,
       stored_password config w user = Some hash
       ∧ r = Returned
               (Some (dict_update (dict_of [("addr", user); ("password", hash)])
                        (get_user_dict config user None))))
  ∨ own_record crypt_sha512 config user pw r.

(** An established address: [lookup_userdb] finds its record. *)
Definition established (config : Config) (w : World) (addr : string) : Prop :=
  ∃ record, record ≠ [] ∧ lookup_userdb config addr w = (Return record, w).

(** The mailbox directory holds the directories of established addresses
    and nothing else: the name of every entry has an [@] and the entry
    holds a password file. *)
Definition accounts_only (w : World) : Prop :=
  map_Forall (λ name d, contains at_sign name = true ∧ is_Some (password_file d))
    (mailboxes w).

(** The worlds that the module reaches from an empty mailbox directory:
    by lookups, by account creation, and by someone setting or removing
    the marker file. *)
Inductive reached (crypt_sha512 : nat → string → string) (config : Config)
  : World → Prop :=
| reached_empty marker :
    reached crypt_sha512 config
      {| nocreate_file := marker; mailboxes := ∅; log := []; crypt_calls := 0 |}
| reached_handle_lookup parts w :
    reached crypt_sha512 config w →
    reached crypt_sha512 config (handle_lookup crypt_sha512 config parts w).2
| reached_lookup_passdb user pw w :
    reached crypt_sha512 config w →
    reached crypt_sha512 config (lookup_passdb crypt_sha512 config user pw w).2
| reached_marker marker w :
    reached crypt_sha512 config w →
    reached crypt_sha512 config
      {| nocreate_file := marker; mailboxes := mailboxes w; log := log w;
         crypt_calls := crypt_calls w |}.

(** The world [w] with the warnings [ws] logged. *)
Definition logged (w : World) (ws : list warning) : World :=
  {| nocreate_file := nocreate_file w; mailboxes := mailboxes w;
     log := log w ++ ws; crypt_calls := crypt_calls w |}.

(** [user] is [localpart], an [@] and [domain], with no other [@]. *)
Definition address_parts (user localpart domain : string) : Prop :=
  user = localpart +:+ String at_sign domain
  ∧ contains at_sign localpart = false
  ∧ contains at_sign domain = false.

(** The five checks of the creation policy. *)
Definition all_checks_pass (config : Config) (w : World)
    (user cleartext_password : string) : Prop :=
  nocreate_file w = false
  ∧ password_min_length config ≤ len cleartext_password
  ∧ ∃ localpart domain,
      address_parts user localpart domain
      ∧ localpart ≠ "echo"
      ∧ username_min_length config ≤ len localpart ≤ username_max_length config.

(** The number of occurrences of [c] in [s]. *)
Fixpoint count_char (c : ascii) (s : string) : nat :=
  match s with
  | EmptyString => 0%nat
  | String d rest => ((if Ascii.eqb d c then 1 else 0) + count_char c rest)%nat
  end.

(** Plain splitting on the double quote, with no escape character. *)
Definition plain_split (s : string) : list string := split dquote s.

(** A field with its special characters escaped: a backslash before
    every backslash and every double quote. *)
Fixpoint escape_field (s : string) : string :=
  match s with
  | EmptyString => EmptyString
  | String c rest =>
      if Ascii.eqb c backslash || Ascii.eqb c dquote
      then String backslash (String c (escape_field rest))
      else String c (escape_field rest)
  end.

(** The escaped fields joined with the double quote. *)
Definition escape (fields : list string) : string :=
  join (str1 dquote) (map escape_field fields).

(** The argument blob ends in an escape character that is not itself
    escaped: what is left after a complete token is a lone backslash. *)
Fixpoint ends_in_lone_escape (s : string) : bool :=
  match s with
  | EmptyString => false
  | String c rest =>
      if Ascii.eqb c backslash then
        match rest with
        | EmptyString => true
        | String _ rest' => ends_in_lone_escape rest'
        end
      else ends_in_lone_escape rest
  end.

(** The three replies of [handle_lookup]: the record found, no record,
    and a request that is not a lookup it knows. *)
Definition reply_found (d : dict) : string :=
  "O" +:+ Json.dumps (VDict d) +:+ str1 newline.
Definition reply_absent : string := "N" +:+ str1 newline.
Definition reply_failure : string := "F" +:+ str1 newline.

(** [user.endswith(f"@{config.mail_domain}")]. *)
Definition in_mail_domain (config : Config) (user : string) : bool :=
  endswith user (String at_sign (mail_domain config)).

(** The namespace and kind that [handle_lookup] routes. *)
Definition recognized (namespace type : string) : Prop :=
  namespace = "shared" ∧ (type = "userdb" ∨ type = "passdb").

(** The lookup that a request of the shared namespace is routed to, by
    its kind and arguments, with the value it leaves in [res] and the
    world it leaves: [userdb] takes the address as its first argument and
    calls [lookup_userdb], [passdb] takes the password and the address
    and calls [lookup_passdb]; for an address outside of the mail domain
    no lookup is made and [res] stays the empty string. *)
Inductive routed (crypt_sha512 : nat → string → string) (config : Config)
    (w : World) : string → list string → value → World → Prop :=
| routed_userdb user args d w' :
    args !! 0%nat = Some user →
    in_mail_domain config user = true →
    lookup_userdb config user w = (Return d, w') →
    routed crypt_sha512 config w "userdb" args (VDict d) w'
| routed_userdb_other_domain user args :
    args !! 0%nat = Some user →
    in_mail_domain config user = false →
    routed crypt_sha512 config w "userdb" args (VStr EmptyString) w
| routed_passdb pw user args r w' :
    args !! 0%nat = Some pw →
    args !! 1%nat = Some user →
    in_mail_domain config user = true →
    lookup_passdb crypt_sha512 config user pw w = (Return r, w') →
    routed crypt_sha512 config w "passdb" args (of_option r) w'
| routed_passdb_other_domain user args :
    args !! 1%nat = Some user →
    in_mail_domain config user = false →
    routed crypt_sha512 config w "passdb" args (VStr EmptyString) w.

(** The requests that [handle_lookup] cannot decode, with the exception
    each one ends in: no key at all, a key with fewer than two slashes,
    an argument blob that ends in a lone escape character, and a
    [shared/passdb] request with fewer than two arguments. *)
Inductive malformed : list string → exn → Prop :=
| malformed_no_key : malformed [] IndexError
| malformed_key keyname rest :
    length (split_max slash keyname 2) ≠ 3%nat →
    malformed (keyname :: rest) ValueError
| malformed_escape keyname rest namespace type blob :
    split_max slash keyname 2 = [namespace; type; blob] →
    ends_in_lone_escape blob = true →
    malformed (keyname :: rest) IndexError
| malformed_arguments keyname rest blob args :
    split_max slash keyname 2 = ["shared"; "passdb"; blob] →
    list_of (split_and_unescape blob) = Return args →
    (length args < 2)%nat →
    malformed (keyname :: rest) IndexError.

(** ** A configuration and worlds to run the functions in *)

(** A stand-in for the hashing primitive, with no salt. *)
Definition example_crypt (n : nat) (password : string) : string :=
  "$6$" +:+ password.

(** The configuration of [test_invalid_username_length]. *)
Definition example_config : Config :=
  {| mail_domain := "chat.example.org";
     password_min_length := 9;
     username_min_length := 6;
     username_max_length := 10;
     mailboxes_dir := "/home/vmail/mail/chat.example.org" |}.

(** An empty mailbox directory and no marker file. *)
Definition empty_world : World :=
  {| nocreate_file := false; mailboxes := ∅; log := []; crypt_calls := 0 |}.

(** The world after [test_basic] has created its account. *)
Definition example_world : World :=
  {| nocreate_file := false;
     mailboxes :=
       {[ "asdf12345@chat.example.org"
          := {| password_file := Some "{SHA512-CRYPT}$6$q9mr3faue" |} ]};
     log := [];
     crypt_calls := 1 |}.

(** The world after [test_handle_dovecot_protocol_iterate] has created
    its two accounts. *)
Definition iterate_world : World :=
  (lookup_passdb example_crypt example_config "asdf11111@chat.example.org"
     "q9mr3faue"
     (lookup_passdb example_crypt example_config "asdf00000@chat.example.org"
        "q9mr3faue" empty_world).2).2.

(** A mailbox directory with one entry that holds no password file. *)
Definition ghost_world : World :=
  {| nocreate_file := false;
     mailboxes := {[ "ghost@chat.example.org" := {| password_file := None |} ]};
     log := [];
     crypt_calls := 0 |}.

(** ** What the further statements speak of *)

(** [c * n]: the character [c], [n] times. *)
Fixpoint repeat_char (c : ascii) (n : nat) : string :=
  match n with
  | O => EmptyString
  | S n => String c (repeat_char c n)
  end.

(** The last character of [s] is [c]. *)
Fixpoint ends_with (c : ascii) (s : string) : bool :=
  match s with
  | EmptyString => false
  | String d EmptyString => Ascii.eqb d c
  | String _ rest => ends_with c rest
  end.

(** An entry of the mailbox directory that the policy and the domain
    check would let through: the name ends in the mail domain, has one
    [@], a localpart within the bounds that is not the reserved one, and
    the password file holds a hash under the scheme tag. *)
Definition policy_entry (config : Config) (name : string) (d : Maildir)
  : Prop :=
  in_mail_domain config name = true
  ∧ (∃ localpart domain,
       address_parts name localpart domain
       ∧ localpart ≠ "echo"
       ∧ username_min_length config ≤ len localpart
                                    ≤ username_max_length config)
  ∧ ∃ hash, password_file d = Some ("{SHA512-CRYPT}" +:+ hash).

(** The worlds that the handlers reach from an empty mailbox directory,
    while someone may set or remove the marker file. *)
Inductive served (crypt_sha512 : nat → string → string) (config : Config)
  : World → Prop :=
| served_start marker :
    served crypt_sha512 config
      {| nocreate_file := marker; mailboxes := ∅; log := []; crypt_calls := 0 |}
| served_lookup parts w :
    served crypt_sha512 config w →
    served crypt_sha512 config (handle_lookup crypt_sha512 config parts w).2
| served_iterate parts w :
    served crypt_sha512 config w →
    served crypt_sha512 config (handle_iterate config parts w).2
| served_marker marker w :
    served crypt_sha512 config w →
    served crypt_sha512 config
      {| nocreate_file := marker; mailboxes := mailboxes w; log := log w;
         crypt_calls := crypt_calls w |}.

(** Accounts created one after the other, each by a call of
    [lookup_passdb] with its address and password. *)
Fixpoint create_all (crypt_sha512 : nat → string → string) (config : Config)
    (accounts : list (string * string)) (w : World) : World :=
  match accounts with
  | [] => w
  | (user, pw) :: rest =>
      create_all crypt_sha512 config rest
        (lookup_passdb crypt_sha512 config user pw w).2
  end.

(** The NUL character, which no file name and no argument of the hashing
    primitive can hold. *)
Definition nul : ascii := "000"%char.

(** The entries of the mailbox directory that are named like an address
    are the ones with a password file: the name of an entry has an [@]
    exactly when the entry holds a password file. *)
Definition entries_marked (w : World) : Prop :=
  map_Forall (λ name d, contains at_sign name = true ↔ is_Some (password_file d))
    (mailboxes w).

(** The two accounts of [iterate_world] beside an entry that is no
    account: no [@] in its name and no password file. *)
Definition stray_world : World :=
  {| nocreate_file := false;
     mailboxes :=
       <["lost+found" := {| password_file := None |}]> (mailboxes iterate_world);
     log := [];
     crypt_calls := 2 |}.

(** A mailbox directory with one entry that holds a password file under
    a name with no [@]. *)
Definition postmaster_world : World :=
  {| nocreate_file := false;
     mailboxes :=
       {[ "postmaster"
          := {| password_file := Some "{SHA512-CRYPT}$6$q9mr3faue" |} ]};
     log := [];
     crypt_calls := 0 |}.

(** * Properties *)

(** ** Strings *)

Lemma append_empty_r (s : string) : s +:+ EmptyString = s.
Proof. induction s as [|c s IH]; simpl; [done | by rewrite IH]. Qed.

Lemma append_assoc (s t u : string) : (s +:+ t) +:+ u = s +:+ (t +:+ u).
Proof. induction s as [|c s IH]; simpl; [done | by rewrite IH]. Qed.

Lemma snoc_append (out : string) (c : ascii) (s : string) :
  snoc out c +:+ s = out +:+ String c s.
Proof. unfold snoc, str1. by rewrite append_assoc. Qed.

Lemma contains_append (c : ascii) (s t : string) :
  contains c (s +:+ t) = contains c s || contains c t.
Proof.
  induction s as [|d s IH]; simpl; [done |].
  rewrite IH. by rewrite orb_assoc.
Qed.

Lemma split_nonempty (sep : ascii) (s : string) : split sep s ≠ [].
Proof.
  induction s as [|c s IH]; simpl; [done |].
  destruct (Ascii.eqb c sep); [done |].
  by destruct (split sep s).
Qed.

Lemma split_length (sep : ascii) (s : string) :
  length (split sep s) = S (count_char sep s).
Proof.
  induction s as [|c s IH]; simpl; [done |].
  destruct (Ascii.eqb c sep); simpl; [by rewrite IH |].
  rewrite <- IH. pose proof (split_nonempty sep s).
  by destruct (split sep s).
Qed.

(** ** The tokenizer *)

Lemma get_none (i : nat) (s : string) :
  String.get i s = None → string_from i s = EmptyString.
Proof.
  revert i. induction s as [|c s IH]; intros [|i]; simpl; try done.
  apply IH.
Qed.

Lemma get_some (i : nat) (s : string) (c : ascii) :
  String.get i s = Some c →
  string_from i s = String c (string_from (S i) s)
  ∧ (i < String.length s)%nat.
Proof.
  revert i. induction s as [|d s IH]; intros [|i]; simpl; try done.
  - intros [= ->]. split; [by destruct s | lia].
  - intros H. destruct (IH _ H) as [-> Hlt]. split; [done | lia].
Qed.

(** The loop on the index reads what the loop on the rest of the string
    reads, when it has turns enough. *)
Lemma split_and_unescape_from_loop (fuel : nat) (s : string) (i : nat)
    (out : string) :
  (String.length s - i < fuel)%nat →
  split_and_unescape_from fuel s i out
  = split_and_unescape_loop (string_from i s) out.
Proof.
  revert i out. induction fuel as [|fuel IH]; intros i out Hfuel; [lia |].
  cbn [split_and_unescape_from]. destruct (String.get i s) as [c|] eqn:Hc.
  - destruct (get_some _ _ _ Hc) as [-> Hlt]. cbn [split_and_unescape_loop].
    destruct (Ascii.eqb c backslash).
    + destruct (String.get (S i) s) as [d|] eqn:Hd.
      * destruct (get_some _ _ _ Hd) as [-> Hlt']. apply IH. lia.
      * by rewrite (get_none _ _ Hd).
    + destruct (Ascii.eqb c dquote); rewrite IH by lia; done.
  - by rewrite (get_none _ _ Hc).
Qed.

Lemma split_and_unescape_eq (s : string) :
  split_and_unescape s = split_and_unescape_loop s EmptyString.
Proof.
  unfold split_and_unescape. rewrite split_and_unescape_from_loop by lia. done.
Qed.

(** Without a backslash the loop splits what is left and puts [out] in
    front of the first segment. *)
Lemma split_and_unescape_loop_plain (s out : string) :
  contains backslash s = false →
  split_and_unescape_loop s out
  = (match split dquote s with
     | [] => []
     | p :: ps => (out +:+ p) :: ps
     end, None).
Proof.
  revert out. induction s as [|c s IH]; intros out Hs; simpl in *.
  - unfold yield; simpl. by rewrite append_empty_r.
  - apply orb_false_iff in Hs as [Hc Hs]. rewrite Hc.
    destruct (Ascii.eqb c dquote).
    + rewrite (IH EmptyString Hs). unfold yield; simpl.
      rewrite append_empty_r. pose proof (split_nonempty dquote s).
      by destruct (split dquote s).
    + rewrite (IH _ Hs). pose proof (split_nonempty dquote s).
      destruct (split dquote s) as [|p ps]; [done |]. simpl.
      by rewrite snoc_append.
Qed.

(** An escaped field is read back into [out], whatever follows it. *)
Lemma split_and_unescape_loop_field (f rest out : string) :
  split_and_unescape_loop (escape_field f +:+ rest) out
  = split_and_unescape_loop rest (out +:+ f).
Proof.
  revert out. induction f as [|c f IH]; intros out; simpl.
  - by rewrite append_empty_r.
  - destruct (Ascii.eqb c backslash) eqn:Hb; simpl.
    + rewrite IH. by rewrite snoc_append.
    + destruct (Ascii.eqb c dquote) eqn:Hq; simpl.
      * rewrite IH. by rewrite snoc_append.
      * rewrite Hb, Hq, IH. by rewrite snoc_append.
Qed.

Lemma split_and_unescape_loop_escape (f : string) (fs : list string)
    (out : string) :
  split_and_unescape_loop (escape (f :: fs)) out = ((out +:+ f) :: fs, None).
Proof.
  revert f out. induction fs as [|g gs IH]; intros f out.
  - unfold escape; simpl.
    rewrite <- (append_empty_r (escape_field f)).
    by rewrite split_and_unescape_loop_field.
  - change (escape (f :: g :: gs))
      with (escape_field f +:+ str1 dquote +:+ escape (g :: gs)).
    rewrite split_and_unescape_loop_field. simpl.
    rewrite IH. done.
Qed.

(** Induction along the steps of the tokenizer's loop: the end of the
    input, a lone escape character at the end, an escaped character, and
    any character that is not the escape character. *)
Lemma tokenizer_ind (P : string → Prop) :
  P EmptyString →
  P (str1 backslash) →
  (∀ d s, P s → P (String backslash (String d s))) →
  (∀ c s, Ascii.eqb c backslash = false → P s → P (String c s)) →
  ∀ s, P s.
Proof.
  intros Hend Hlone Hesc Hchar s.
  cut (P s ∧ ∀ c, P (String c s)); [tauto |].
  induction s as [|d s [IHs IHc]].
  - split; [done |]. intros c.
    destruct (Ascii.eqb c backslash) eqn:Hc.
    + apply Ascii.eqb_eq in Hc as ->. exact Hlone.
    + by apply Hchar.
  - split; [apply IHc |]. intros c.
    destruct (Ascii.eqb c backslash) eqn:Hc.
    + apply Ascii.eqb_eq in Hc as ->. by apply Hesc.
    + apply Hchar; [done | apply IHc].
Qed.

Lemma list_of_yield {A : Type} (x : A) (g : generated A) :
  list_of (yield x g)
  = match list_of g with
    | Return l => Return (x :: l)
    | Raise e => Raise e
    end.
Proof. unfold list_of, yield; simpl. by destruct g.2. Qed.

(** The tokenizer raises [IndexError] exactly on a blob that ends in a
    lone escape character, and yields at least one segment otherwise. *)
Lemma split_and_unescape_loop_outcome (s out : string) :
  if ends_in_lone_escape s
  then list_of (split_and_unescape_loop s out) = Raise IndexError
  else ∃ a args, list_of (split_and_unescape_loop s out) = Return (a :: args).
Proof.
  revert out. induction s as [| |d s IH|c s Hc IH] using tokenizer_ind;
    intros out.
  - simpl. by exists out, [].
  - done.
  - simpl. apply IH.
  - change (ends_in_lone_escape (String c s)) with
      (if Ascii.eqb c backslash
       then match s with
            | EmptyString => true
            | String _ rest' => ends_in_lone_escape rest'
            end
       else ends_in_lone_escape s).
    change (split_and_unescape_loop (String c s) out) with
      (if Ascii.eqb c backslash
       then match s with
            | EmptyString => ([], Some IndexError)
            | String d rest' => split_and_unescape_loop rest' (snoc out d)
            end
       else if Ascii.eqb c dquote
            then yield out (split_and_unescape_loop s EmptyString)
            else split_and_unescape_loop s (snoc out c)).
    rewrite Hc. destruct (Ascii.eqb c dquote).
    + rewrite list_of_yield. specialize (IH EmptyString).
      destruct (ends_in_lone_escape s).
      * by rewrite IH.
      * destruct IH as (a & args & ->). by exists out, (a :: args).
    + apply IH.
Qed.

(** C9. On an input with no backslash the tokenizer yields the segments of
    a plain split on the double quote, one more than there are double
    quotes; the empty input yields one empty segment. *)
Theorem tokenize_without_escape (s : string) :
  contains backslash s = false →
  list_of (split_and_unescape s) = Return (plain_split s)
  ∧ length (plain_split s) = S (count_char dquote s)
  ∧ (s = EmptyString →
     list_of (split_and_unescape s) = Return [EmptyString]).
Proof.
  intros Hs. rewrite split_and_unescape_eq. unfold plain_split.
  rewrite (split_and_unescape_loop_plain s EmptyString Hs).
  pose proof (split_nonempty dquote s) as Hne.
  split; [| split].
  - by destruct (split dquote s).
  - apply split_length.
  - by intros ->.
Qed.

(** The arguments of a [shared/passdb] request, and the empty input. *)
Lemma tokenize_without_escape_witness :
  (list_of (split_and_unescape ("secret123" +:+ String dquote "new@domain"))
   = Return ["secret123"; "new@domain"]
   ∧ length (plain_split ("secret123" +:+ String dquote "new@domain")) = 2%nat)
  ∧ list_of (split_and_unescape EmptyString) = Return [EmptyString].
Proof.
  split.
  - pose proof (tokenize_without_escape
                  ("secret123" +:+ String dquote "new@domain") eq_refl)
      as (Hsplit & Hcount & _).
    split; [exact Hsplit | exact Hcount].
  - exact (proj2 (proj2 (tokenize_without_escape EmptyString eq_refl)) eq_refl).
Defined.

(** C6, as amended. For every list of fields that is not empty,
    tokenizing the fields escaped and joined with the double quote yields
    the fields again, in order. *)
Theorem tokenize_escape (f : string) (fs : list string) :
  list_of (split_and_unescape (escape (f :: fs))) = Return (f :: fs).
Proof.
  by rewrite split_and_unescape_eq, split_and_unescape_loop_escape.
Qed.

(** C6 fails for the empty list of fields: the tokenizer ends every
    input with a last segment, so the empty list, escaped to the empty
    string, is read back as one empty field. *)
Lemma tokenize_escape_no_fields :
  list_of (split_and_unescape (escape [])) = Return [EmptyString]
  ∧ ¬ (∀ fields : list string,
         list_of (split_and_unescape (escape fields)) = Return fields).
Proof.
  split; [reflexivity |]. intros H. specialize (H []). discriminate H.
Qed.

(** ** Splitting on a character *)

Lemma split_none (sep : ascii) (s : string) :
  contains sep s = false → split sep s = [s].
Proof.
  induction s as [|c s IH]; simpl; [done |].
  intros [Hc Hs]%orb_false_iff. rewrite Hc, (IH Hs). done.
Qed.

Lemma split_append (sep : ascii) (p s : string) :
  contains sep p = false →
  split sep (p +:+ String sep s) = p :: split sep s.
Proof.
  induction p as [|c p IH]; simpl.
  - intros _. by rewrite Ascii.eqb_refl.
  - intros [Hc Hp]%orb_false_iff. rewrite Hc, (IH Hp). done.
Qed.

Lemma split_cons_inv (sep : ascii) (s p : string) (ps : list string) :
  split sep s = p :: ps →
  contains sep p = false
  ∧ ((ps = [] ∧ s = p) ∨ (∃ t, s = p +:+ String sep t ∧ split sep t = ps)).
Proof.
  revert p ps. induction s as [|c s IH]; intros p ps; simpl.
  - intros [= <- <-]. auto.
  - destruct (Ascii.eqb c sep) eqn:Hc.
    + apply Ascii.eqb_eq in Hc as ->. intros [= <- <-].
      split; [done |]. right. by exists s.
    + destruct (split sep s) as [|q qs] eqn:Hq.
      { by destruct (split_nonempty sep s). }
      simpl. intros [= <- <-].
      destruct (IH q qs eq_refl) as [Hcq Hs]. split.
      * simpl. by rewrite Hc, Hcq.
      * destruct Hs as [[-> ->] | (t & -> & Ht)]; [by left |].
        right. by exists t.
Qed.

(** [user.split("@")] has two parts exactly when [user] holds one [@]. *)
Lemma split_two (user localpart domain : string) :
  split at_sign user = [localpart; domain]
  ↔ address_parts user localpart domain.
Proof.
  unfold address_parts. split.
  - intros H. destruct (split_cons_inv _ _ _ _ H) as [Hl [[? _] | (t & -> & Ht)]];
      [done |].
    destruct (split_cons_inv _ _ _ _ Ht) as [Hd [[_ ->] | (u & _ & Hu)]];
      [done |].
    by destruct (split_nonempty at_sign u).
  - intros (-> & Hl & Hd). by rewrite (split_append _ _ _ Hl), (split_none _ _ Hd).
Qed.

(** ** The creation policy *)

Lemma logged_nil (w : World) : logged w [] = w.
Proof. destruct w. unfold logged; simpl. by rewrite app_nil_r. Qed.

Ltac run_policy :=
  unfold is_allowed_to_create, bind, nocreate_exists, warn, ret, logged; simpl.

Lemma policy_blocked (config : Config) (user pw : string) (w : World) :
  nocreate_file w = true →
  is_allowed_to_create config user pw w
  = (Return false, logged w [blocked_nocreate]).
Proof. intros H. destruct w; simpl in *; subst. by run_policy. Qed.

Lemma policy_password (config : Config) (user pw : string) (w : World) :
  nocreate_file w = false →
  len pw < password_min_length config →
  is_allowed_to_create config user pw w
  = (Return false, logged w [password_too_short (password_min_length config)]).
Proof.
  intros H Hpw%Z.ltb_lt. destruct w; simpl in *; subst. run_policy.
  by rewrite Hpw.
Qed.

Lemma policy_not_address (config : Config) (user pw : string) (w : World) :
  nocreate_file w = false →
  password_min_length config ≤ len pw →
  (¬ ∃ localpart domain, address_parts user localpart domain) →
  is_allowed_to_create config user pw w
  = (Return false, logged w [not_an_address user]).
Proof.
  intros H Hpw%Z.ltb_ge Hparts. destruct w; simpl in *; subst. run_policy.
  rewrite Hpw.
  destruct (split at_sign user) as [|l [|d [|x xs]]] eqn:Hs; try done.
  destruct Hparts. exists l, d. by apply split_two.
Qed.

Lemma policy_reserved (config : Config) (user pw domain : string) (w : World) :
  nocreate_file w = false →
  password_min_length config ≤ len pw →
  address_parts user "echo" domain →
  is_allowed_to_create config user pw w = (Return false, w).
Proof.
  intros H Hpw%Z.ltb_ge Hparts%split_two. destruct w; simpl in *; subst.
  run_policy. by rewrite Hpw, Hparts.
Qed.

Lemma policy_localpart (config : Config) (user pw localpart domain : string)
    (w : World) :
  nocreate_file w = false →
  password_min_length config ≤ len pw →
  address_parts user localpart domain →
  localpart ≠ "echo" →
  len localpart > username_max_length config
  ∨ len localpart < username_min_length config →
  is_allowed_to_create config user pw w
  = (Return false,
     logged w [localpart_length localpart (username_min_length config)
                 (username_max_length config)]).
Proof.
  intros H Hpw%Z.ltb_ge Hparts%split_two Hl%String.eqb_neq Hlen.
  destruct w; simpl in *; subst. run_policy. rewrite Hpw, Hparts, Hl.
  replace ((len localpart >? username_max_length config)
           || (len localpart <? username_min_length config)) with true; [done |].
  symmetry. apply orb_true_iff.
  destruct Hlen as [Hlen | Hlen]; [left | right].
  - rewrite Z.gtb_ltb. apply Z.ltb_lt. lia.
  - by apply Z.ltb_lt.
Qed.

Lemma policy_accepts (config : Config) (user pw : string) (w : World) :
  all_checks_pass config w user pw →
  is_allowed_to_create config user pw w = (Return true, w).
Proof.
  intros (H & Hpw%Z.ltb_ge & l & d & Hparts%split_two & Hl%String.eqb_neq & Hlen).
  destruct w; simpl in *; subst. run_policy. rewrite Hpw, Hparts, Hl.
  replace ((len l >? username_max_length config)
           || (len l <? username_min_length config)) with false; [done |].
  symmetry. apply orb_false_iff. split.
  - rewrite Z.gtb_ltb. apply Z.ltb_ge. lia.
  - apply Z.ltb_ge. lia.
Qed.

(** The policy always answers, and only adds to the log. *)
Lemma policy_total (config : Config) (user pw : string) (w : World) :
  ∃ b ws, is_allowed_to_create config user pw w = (Return b, logged w ws).
Proof.
  destruct (nocreate_file w) eqn:H.
  { eexists _, _. by apply policy_blocked. }
  destruct (Z.lt_ge_cases (len pw) (password_min_length config)) as [Hpw | Hpw].
  { eexists _, _. by apply policy_password. }
  destruct (split at_sign user) as [|l [|d [|x xs]]] eqn:Hs;
    try (eexists _, _; apply policy_not_address; [done | done |];
         intros (l' & d' & Hp%split_two); congruence).
  apply split_two in Hs.
  destruct (decide (l = "echo")) as [-> | Hl].
  { exists false, []. rewrite logged_nil. by eapply policy_reserved. }
  destruct (Z.lt_ge_cases (username_max_length config) (len l)) as [Hmax | Hmax].
  { eexists _, _. apply (policy_localpart _ _ _ l d); [done .. | lia]. }
  destruct (Z.lt_ge_cases (len l) (username_min_length config)) as [Hmin | Hmin].
  { eexists _, _. apply (policy_localpart _ _ _ l d); [done .. | lia]. }
  exists true, []. rewrite logged_nil. apply policy_accepts.
  do 2 (split; [done |]). exists l, d. do 2 (split; [done |]). lia.
Qed.

Lemma policy_accepts_inv (config : Config) (user pw : string) (w : World) :
  (is_allowed_to_create config user pw w).1 = Return true →
  all_checks_pass config w user pw.
Proof.
  unfold all_checks_pass. run_policy.
  destruct (nocreate_file w); [done |].
  destruct (_ <? _) eqn:Hpw; [done |]. apply Z.ltb_ge in Hpw.
  destruct (split at_sign user) as [|l [|d [|x xs]]] eqn:Hs; try done.
  apply split_two in Hs.
  destruct (String.eqb l "echo") eqn:Hl; [done |]. apply String.eqb_neq in Hl.
  destruct (_ || _) eqn:Hlen; [done |].
  apply orb_false_iff in Hlen as [Hmax Hmin].
  rewrite Z.gtb_ltb in Hmax. apply Z.ltb_ge in Hmax, Hmin.
  intros _. do 2 (split; [done |]). exists l, d. do 2 (split; [done |]). lia.
Qed.

Lemma address_parts_unique (user l d l' d' : string) :
  address_parts user l d → address_parts user l' d' → l = l' ∧ d = d'.
Proof. intros H%split_two H'%split_two. split; congruence. Qed.

Lemma policy_answer (config : Config) (user pw : string) (w : World) :
  (is_allowed_to_create config user pw w).1 ≠ Return true →
  (is_allowed_to_create config user pw w).1 = Return false.
Proof.
  destruct (policy_total config user pw w) as ([] & ws & ->); simpl; done.
Qed.

(** C4. [is_allowed_to_create] returns true exactly when all five checks
    pass; the checks run in the order marker file, password length, two
    parts, reserved localpart, localpart length, and the first one that
    fails decides the answer and the warning. With the bounds 6 and 10,
    localparts of length 5 and 11 are rejected and those of length 6 and
    10 are accepted. *)
Theorem is_allowed_to_create_checks (config : Config) (user pw : string)
    (w : World) :
  let answer := is_allowed_to_create config user pw w in
  (answer.1 = Return true ↔ all_checks_pass config w user pw)
  ∧ (∃ b ws, answer = (Return b, logged w ws))
  ∧ (nocreate_file w = true →
     answer = (Return false, logged w [blocked_nocreate]))
  ∧ (nocreate_file w = false →
     len pw < password_min_length config →
     answer
     = (Return false, logged w [password_too_short (password_min_length config)]))
  ∧ (nocreate_file w = false →
     password_min_length config ≤ len pw →
     (¬ ∃ localpart domain, address_parts user localpart domain) →
     answer = (Return false, logged w [not_an_address user]))
  ∧ (∀ localpart domain,
       nocreate_file w = false →
       password_min_length config ≤ len pw →
       address_parts user localpart domain →
       (localpart = "echo" → answer = (Return false, w))
       ∧ (localpart ≠ "echo" →
          len localpart > username_max_length config
          ∨ len localpart < username_min_length config →
          answer
          = (Return false,
             logged w [localpart_length localpart (username_min_length config)
                         (username_max_length config)])))
  ∧ (∀ localpart domain,
       username_min_length config = 6 →
       username_max_length config = 10 →
       address_parts user localpart domain →
       (len localpart = 5 ∨ len localpart = 11 → answer.1 = Return false)
       ∧ (len localpart = 6 ∨ len localpart = 10 →
          nocreate_file w = false →
          password_min_length config ≤ len pw →
          localpart ≠ "echo" →
          answer.1 = Return true)).
Proof.
  intros answer. subst answer. repeat apply conj.
  - apply policy_accepts_inv.
  - intros H. by rewrite (policy_accepts _ _ _ _ H).
  - apply policy_total.
  - apply policy_blocked.
  - apply policy_password.
  - apply policy_not_address.
  - intros l d H Hpw Hparts. split.
    + intros ->. by eapply policy_reserved.
    + intros Hl Hlen. by eapply policy_localpart.
  - intros l d Hmin Hmax Hparts. split.
    + intros Hlen. apply policy_answer. intros Hacc%policy_accepts_inv.
      destruct Hacc as (_ & _ & l' & d' & Hparts' & _ & Hb).
      destruct (address_parts_unique _ _ _ _ _ Hparts Hparts') as [<- <-]. lia.
    + intros Hlen H Hpw Hl. rewrite policy_accepts; [done |].
      do 2 (split; [done |]). exists l, d. do 2 (split; [done |]). lia.
Qed.

(** The addresses of [test_invalid_username_length], with a password of
    nine characters, in a world with no marker file. *)
Lemma is_allowed_to_create_checks_witness :
  (is_allowed_to_create example_config "a1234@chat.example.org" "q9mr3faue"
     empty_world).1 = Return false
  ∧ (is_allowed_to_create example_config "012345@chat.example.org" "q9mr3faue"
       empty_world).1 = Return true
  ∧ (is_allowed_to_create example_config "0123456789@chat.example.org"
       "q9mr3faue" empty_world).1 = Return true
  ∧ (is_allowed_to_create example_config "0123456789x@chat.example.org"
       "q9mr3faue" empty_world).1 = Return false.
Proof.
  pose (bounds u l :=
    proj2 (proj2 (proj2 (proj2 (proj2 (proj2
      (is_allowed_to_create_checks example_config u "q9mr3faue" empty_world))))))
      l "chat.example.org" eq_refl eq_refl).
  repeat apply conj.
  - apply (bounds _ "a1234"); [by repeat split | by left].
  - apply (bounds _ "012345"); [by repeat split | by left | done | done | done].
  - apply (bounds _ "0123456789"); [by repeat split | by right | done | done | done].
  - apply (bounds _ "0123456789x"); [by repeat split | by right].
Defined.

(** C5. An address whose localpart is the reserved name [echo] is
    rejected by the creation policy, whatever the domain, the password,
    the configuration and the world. *)
Theorem reserved_localpart_rejected (config : Config) (domain pw : string)
    (w : World) :
  (is_allowed_to_create config ("echo" +:+ String at_sign domain) pw w).1
  = Return false.
Proof.
  apply policy_answer. intros Hacc%policy_accepts_inv.
  destruct Hacc as (_ & _ & l & d & Hparts%split_two & Hl & _).
  simpl in Hparts. destruct (split at_sign domain) as [|? [|? ?]]; simpl in Hparts;
    congruence.
Qed.

(** ** The lookups *)

(** The record that [lookup_userdb] builds around a stored hash. *)
Lemma userdb_record (config : Config) (user text : string) :
  dict_update (dict_of [("addr", user); ("password", text)])
    (get_user_dict config user None)
  = [("addr", user); ("password", text);
     ("home", mailboxes_dir config +:+ "/" +:+ user);
     ("uid", "vmail"); ("gid", "vmail")].
Proof. reflexivity. Qed.

(** [lookup_userdb] reads and never writes. *)
Lemma lookup_userdb_run (config : Config) (user : string) (w : World) :
  lookup_userdb config user w
  = (Return (match stored_password config w user with
             | Some text =>
                 dict_update (dict_of [("addr", user); ("password", text)])
                   (get_user_dict config user None)
             | None => []
             end), w).
Proof.
  unfold lookup_userdb, bind, ret, password_exists, password_read_text,
    stored_password, get_user_maildir.
  destruct (mailboxes w !! user) as [[[text|]]|] eqn:Hdir; simpl;
    rewrite ?Hdir; reflexivity.
Qed.

Lemma lookup_passdb_present (crypt_sha512 : nat → string → string)
    (config : Config) (user pw text : string) (w : World) :
  stored_password config w user = Some text →
  lookup_passdb crypt_sha512 config user pw w
  = (Return (Some (dict_update (dict_of [("addr", user); ("password", text)])
                     (get_user_dict config user None))), w).
Proof.
  intros H. unfold lookup_passdb, bind.
  rewrite lookup_userdb_run, H. reflexivity.
Qed.

Lemma lookup_passdb_absent_rejected (crypt_sha512 : nat → string → string)
    (config : Config) (user pw : string) (w w' : World) :
  stored_password config w user = None →
  is_allowed_to_create config user pw w = (Return false, w') →
  lookup_passdb crypt_sha512 config user pw w = (Return None, w').
Proof.
  intros H Hrej. unfold lookup_passdb, bind.
  rewrite lookup_userdb_run, H. simpl. by rewrite Hrej.
Qed.

Lemma lookup_passdb_absent_allowed (crypt_sha512 : nat → string → string)
    (config : Config) (user pw : string) (w : World) :
  stored_password config w user = None →
  all_checks_pass config w user pw →
  lookup_passdb crypt_sha512 config user pw w
  = let enc := "{SHA512-CRYPT}" +:+ crypt_sha512 (crypt_calls w) pw in
    (Return (Some (get_user_dict config user (Some enc))),
     (set_user_password config user enc
        (encrypt_password crypt_sha512 pw w).2).2).
Proof.
  intros H Hacc. unfold lookup_passdb, bind.
  rewrite lookup_userdb_run, H. simpl.
  rewrite (policy_accepts _ _ _ _ Hacc). simpl.
  unfold set_user_password, get_user_maildir. simpl.
  by destruct (mailboxes w !! user) as [[[text|]]|].
Qed.

(** C1. For an address that has a stored password, [lookup_passdb]
    returns the stored record whatever password is supplied and leaves
    the world as it is: no hash is computed and nothing is written. Two
    calls with different passwords return that record both times. *)
Theorem lookup_passdb_established (crypt_sha512 : nat → string → string)
    (config : Config) (user hash : string) (w : World) :
  stored_password config w user = Some hash →
  ∃ record,
    lookup_userdb config user w = (Return record, w)
    ∧ dict_get record "password" = Some hash
    ∧ (∀ pw, lookup_passdb crypt_sha512 config user pw w
             = (Return (Some record), w))
    ∧ (∀ pw1 pw2,
         run_calls crypt_sha512 config user [pw1; pw2] w
         = ([Return (Some record); Return (Some record)], w)).
Proof.
  intros H. eexists. repeat apply conj.
  - by rewrite lookup_userdb_run, H.
  - by rewrite userdb_record.
  - intros pw. by apply lookup_passdb_present.
  - intros pw1 pw2. simpl.
    by rewrite !(lookup_passdb_present _ _ _ _ _ _ H).
Qed.

(** C10. For an address with no stored password and a password that the
    policy rejects, [lookup_passdb] returns [None] and writes nothing:
    the mailbox directory is as before, no hash is computed, and
    [lookup_userdb] still finds nothing. *)
Theorem lookup_passdb_rejected (crypt_sha512 : nat → string → string)
    (config : Config) (user pw : string) (w : World) :
  stored_password config w user = None →
  (is_allowed_to_create config user pw w).1 = Return false →
  ∃ w',
    lookup_passdb crypt_sha512 config user pw w = (Return None, w')
    ∧ mailboxes w' = mailboxes w
    ∧ nocreate_file w' = nocreate_file w
    ∧ crypt_calls w' = crypt_calls w
    ∧ lookup_userdb config user w' = (Return [], w').
Proof.
  intros H Hrej.
  destruct (policy_total config user pw w) as (b & ws & Hrun).
  rewrite Hrun in Hrej. simpl in Hrej. injection Hrej as ->.
  rewrite (lookup_passdb_absent_rejected _ _ _ _ _ _ H Hrun).
  exists (logged w ws). repeat apply conj; try done.
  rewrite lookup_userdb_run.
  replace (stored_password config (logged w ws) user) with
    (stored_password config w user) by done.
  by rewrite H.
Qed.

Lemma lookup_passdb_established_witness :
  ∃ record,
    lookup_userdb example_config "asdf12345@chat.example.org" example_world
    = (Return record, example_world)
    ∧ dict_get record "password" = Some "{SHA512-CRYPT}$6$q9mr3faue"
    ∧ (∀ pw, lookup_passdb example_crypt example_config
               "asdf12345@chat.example.org" pw example_world
             = (Return (Some record), example_world))
    ∧ (∀ pw1 pw2,
         run_calls example_crypt example_config "asdf12345@chat.example.org"
           [pw1; pw2] example_world
         = ([Return (Some record); Return (Some record)], example_world)).
Proof.
  apply (lookup_passdb_established example_crypt example_config
           "asdf12345@chat.example.org" "{SHA512-CRYPT}$6$q9mr3faue"
           example_world).
  vm_compute. reflexivity.
Defined.

Lemma lookup_passdb_rejected_witness :
  ∃ w',
    lookup_passdb example_crypt example_config "a1234@chat.example.org"
      "q9mr3faue" empty_world = (Return None, w')
    ∧ mailboxes w' = mailboxes empty_world
    ∧ nocreate_file w' = nocreate_file empty_world
    ∧ crypt_calls w' = crypt_calls empty_world
    ∧ lookup_userdb example_config "a1234@chat.example.org" w'
      = (Return [], w').
Proof.
  apply (lookup_passdb_rejected example_crypt example_config
           "a1234@chat.example.org" "q9mr3faue" empty_world);
    vm_compute; reflexivity.
Defined.

(** ** The serializer writes no line break *)

Lemma escape_char_no_newline (c : ascii) :
  contains newline (Json.escape_char c) = false.
Proof. by destruct c as [[] [] [] [] [] [] [] []]. Qed.

Lemma escape_string_no_newline (s : string) :
  contains newline (Json.escape_string s) = false.
Proof.
  induction s as [|c s IH]; simpl; [done |].
  by rewrite contains_append, escape_char_no_newline, IH.
Qed.

Lemma dumps_str_no_newline (s : string) :
  contains newline (Json.dumps_str s) = false.
Proof.
  unfold Json.dumps_str. simpl.
  by rewrite contains_append, escape_string_no_newline.
Qed.

Lemma dumps_no_newline (v : value) : contains newline (Json.dumps v) = false.
Proof.
  destruct v as [s| |d]; simpl; [apply dumps_str_no_newline | done |].
  rewrite contains_append. simpl. rewrite orb_false_r.
  induction d as [|kv d IH]; [done |].
  assert (contains newline (Json.dumps_item kv) = false) as Hkv.
  { unfold Json.dumps_item. rewrite !contains_append, !dumps_str_no_newline. done. }
  destruct d as [|kv' d]; [done |].
  change (join ", " (map Json.dumps_item (kv :: kv' :: d)))
    with (Json.dumps_item kv +:+ ", " +:+ join ", " (map Json.dumps_item (kv' :: d))).
  by rewrite !contains_append, Hkv, IH.
Qed.

(** ** The lookup handler *)

(** [lookup_passdb] raises nothing, and a record it returns is not
    empty. *)
Lemma lookup_passdb_total (crypt_sha512 : nat → string → string)
    (config : Config) (user pw : string) (w : World) :
  ∃ r w', lookup_passdb crypt_sha512 config user pw w = (Return r, w')
          ∧ r ≠ Some [].
Proof.
  destruct (stored_password config w user) as [text|] eqn:H.
  { eexists _, _. split; [by apply lookup_passdb_present |].
    by rewrite userdb_record. }
  destruct (policy_total config user pw w) as ([] & ws & Hrun).
  - assert (all_checks_pass config w user pw) as Hacc.
    { apply policy_accepts_inv. by rewrite Hrun. }
    eexists _, _. split; [by apply lookup_passdb_absent_allowed |]. done.
  - eexists _, _. split; [by eapply lookup_passdb_absent_rejected |]. done.
Qed.

Ltac decode_lookup Hs Ha :=
  unfold handle_lookup, bind, lift, index; simpl;
  rewrite Hs; simpl; rewrite Ha; simpl.

Lemma handle_lookup_other (crypt_sha512 : nat → string → string)
    (config : Config) (keyname namespace type blob : string)
    (rest args : list string) (w : World) :
  split_max slash keyname 2 = [namespace; type; blob] →
  list_of (split_and_unescape blob) = Return args →
  ¬ recognized namespace type →
  handle_lookup crypt_sha512 config (keyname :: rest) w
  = (Return reply_failure, w).
Proof.
  intros Hs Ha Hrec. decode_lookup Hs Ha.
  destruct (String.eqb namespace "shared") eqn:Hn; [| done].
  apply String.eqb_eq in Hn as ->.
  destruct (String.eqb type "userdb") eqn:Hu.
  { apply String.eqb_eq in Hu as ->. destruct Hrec. split; auto. }
  destruct (String.eqb type "passdb") eqn:Hp; [| done].
  apply String.eqb_eq in Hp as ->. destruct Hrec. split; auto.
Qed.

Lemma handle_lookup_routed (crypt_sha512 : nat → string → string)
    (config : Config) (keyname type blob : string) (rest args : list string)
    (res : value) (w w' : World) :
  split_max slash keyname 2 = ["shared"; type; blob] →
  list_of (split_and_unescape blob) = Return args →
  routed crypt_sha512 config w type args res w' →
  handle_lookup crypt_sha512 config (keyname :: rest) w
  = (Return (reply (if truthy res then "O" else "N") res), w').
Proof.
  intros Hs Ha Hr. decode_lookup Hs Ha.
  destruct Hr as [user args d w' H0 Hdom Hrun | user args H0 Hdom
                 | pw user args r w' H0 H1 Hdom Hrun | user args H1 Hdom];
    unfold in_mail_domain in Hdom; simpl;
    rewrite ?H0, ?H1, Hdom, ?Hrun; done.
Qed.

Lemma routed_total (crypt_sha512 : nat → string → string) (config : Config)
    (w : World) (type : string) (args : list string) :
  type = "userdb" ∧ (1 ≤ length args)%nat
  ∨ type = "passdb" ∧ (2 ≤ length args)%nat →
  ∃ res w', routed crypt_sha512 config w type args res w'.
Proof.
  intros [[-> Hlen] | [-> Hlen]].
  - destruct args as [|user args]; [simpl in Hlen; lia |].
    destruct (in_mail_domain config user) eqn:Hdom.
    + eexists _, _. eapply routed_userdb; [done | done |].
      apply lookup_userdb_run.
    + eexists _, _. by eapply routed_userdb_other_domain.
  - destruct args as [|pw [|user args]]; [simpl in Hlen; lia .. |].
    destruct (in_mail_domain config user) eqn:Hdom.
    + destruct (lookup_passdb_total crypt_sha512 config user pw w)
        as (r & w' & Hrun & _).
      eexists _, _. by eapply routed_passdb.
    + eexists _, _. by eapply routed_passdb_other_domain.
Qed.

Lemma routed_recognized (crypt_sha512 : nat → string → string)
    (config : Config) (w w' : World) (type : string) (args : list string)
    (res : value) :
  routed crypt_sha512 config w type args res w' → recognized "shared" type.
Proof. intros []; split; auto. Qed.

(** What becomes of a request, by the way it decodes. *)
Lemma handle_lookup_cases (crypt_sha512 : nat → string → string)
    (config : Config) (parts : list string) (w : World) :
  (∃ e, malformed parts e
        ∧ handle_lookup crypt_sha512 config parts w = (Raise e, w))
  ∨ (∃ keyname namespace type blob args,
       parts !! 0%nat = Some keyname
       ∧ split_max slash keyname 2 = [namespace; type; blob]
       ∧ list_of (split_and_unescape blob) = Return args
       ∧ ((namespace = "shared"
           ∧ ∃ res w', routed crypt_sha512 config w type args res w'
                       ∧ handle_lookup crypt_sha512 config parts w
                         = (Return (reply (if truthy res then "O" else "N") res),
                            w'))
          ∨ (¬ recognized namespace type
             ∧ handle_lookup crypt_sha512 config parts w
               = (Return reply_failure, w)))).
Proof.
  destruct parts as [|keyname rest].
  { left. exists IndexError. split; [constructor | done]. }
  destruct (split_max slash keyname 2) as [|ns [|ty [|blob [|x xs]]]] eqn:Hs;
    try (left; exists ValueError; split;
         [apply malformed_key; rewrite Hs; simpl; lia
         | unfold handle_lookup, bind, lift, index; simpl; by rewrite Hs]).
  pose proof (split_and_unescape_loop_outcome blob EmptyString) as Hout.
  destruct (ends_in_lone_escape blob) eqn:Hesc.
  { left. exists IndexError. split; [by eapply malformed_escape |].
    unfold handle_lookup, bind, lift, index; simpl. rewrite Hs. simpl.
    rewrite split_and_unescape_eq. by rewrite Hout. }
  destruct Hout as (a & args & Ha). rewrite <- split_and_unescape_eq in Ha.
  destruct (decide (ns = "shared")) as [-> | Hns].
  2: { right. exists keyname, ns, ty, blob, (a :: args).
       do 3 (split; [done |]). right.
       assert (¬ recognized ns ty) as Hrec by (by intros [? _]).
       split; [done |]. by eapply handle_lookup_other. }
  destruct (decide (ty = "userdb")) as [-> | Hu].
  { right. exists keyname, "shared", "userdb", blob, (a :: args).
    do 3 (split; [done |]). left. split; [done |].
    destruct (routed_total crypt_sha512 config w "userdb" (a :: args))
      as (res & w' & Hr); [left; split; [done | simpl; lia] |].
    exists res, w'. split; [done |]. by eapply handle_lookup_routed. }
  destruct (decide (ty = "passdb")) as [-> | Hp].
  2: { right. exists keyname, "shared", ty, blob, (a :: args).
       do 3 (split; [done |]). right.
       assert (¬ recognized "shared" ty) as Hrec by (intros [_ [? | ?]]; done).
       split; [done |]. by eapply handle_lookup_other. }
  destruct args as [|user args].
  { left. exists IndexError. split.
    - eapply malformed_arguments; [done | done | simpl; lia].
    - by decode_lookup Hs Ha. }
  right. exists keyname, "shared", "passdb", blob, (a :: user :: args).
  do 3 (split; [done |]). left. split; [done |].
  destruct (routed_total crypt_sha512 config w "passdb" (a :: user :: args))
    as (res & w' & Hr); [right; split; [done | simpl; lia] |].
  exists res, w'. split; [done |]. by eapply handle_lookup_routed.
Qed.

(** C3, as amended. A lookup request that is malformed (no key, a key
    with fewer than two slashes, an argument blob that ends in a lone
    escape character, or a [shared/passdb] request with fewer than two
    arguments) makes [handle_lookup] raise: [ValueError] for the key,
    [IndexError] otherwise. It returns no reply, so not the reply [F],
    and leaves the world as it is. *)
Theorem handle_lookup_malformed (crypt_sha512 : nat → string → string)
    (config : Config) (parts : list string) (w : World) (e : exn) :
  malformed parts e →
  handle_lookup crypt_sha512 config parts w = (Raise e, w)
  ∧ (handle_lookup crypt_sha512 config parts w).1 ≠ Return reply_failure.
Proof.
  intros Hm.
  assert (handle_lookup crypt_sha512 config parts w = (Raise e, w)) as Hrun.
  { destruct Hm as [| keyname rest Hlen | keyname rest ns ty blob Hs Hesc
                   | keyname rest blob args Hs Ha Hlen].
    - done.
    - unfold handle_lookup, bind, lift, index; simpl.
      by destruct (split_max slash keyname 2) as [|? [|? [|? [|? ?]]]].
    - unfold handle_lookup, bind, lift, index; simpl. rewrite Hs. simpl.
      pose proof (split_and_unescape_loop_outcome blob EmptyString) as Hout.
      rewrite Hesc in Hout. rewrite split_and_unescape_eq. by rewrite Hout.
    - decode_lookup Hs Ha.
      destruct args as [|a [|b args]]; [done | done | simpl in Hlen; lia]. }
  split; [exact Hrun |]. by rewrite Hrun.
Qed.

(** A request for [shared/passdb] with the password alone. *)
Lemma handle_lookup_malformed_witness :
  handle_lookup example_crypt example_config ["shared/passdb/q9mr3faue"]
    empty_world = (Raise IndexError, empty_world)
  ∧ (handle_lookup example_crypt example_config ["shared/passdb/q9mr3faue"]
       empty_world).1 ≠ Return reply_failure.
Proof.
  apply (handle_lookup_malformed example_crypt example_config
           ["shared/passdb/q9mr3faue"] empty_world IndexError).
  apply (malformed_arguments "shared/passdb/q9mr3faue" [] "q9mr3faue"
           ["q9mr3faue"]); [reflexivity | reflexivity | simpl; lia].
Defined.

(** C3 fails on the code: a request whose argument blob ends in a lone
    escape character, one with a single argument for [shared/passdb] and
    one whose key has no second slash each end in an exception, not in
    the reply [F]. *)
Lemma handle_lookup_malformed_raises :
  handle_lookup example_crypt example_config
    ["shared/userdb/foobar@chat.example.org" +:+ str1 backslash] empty_world
  = (Raise IndexError, empty_world)
  ∧ handle_lookup example_crypt example_config
      ["shared/passdb/q9mr3faue"] empty_world
    = (Raise IndexError, empty_world)
  ∧ handle_lookup example_crypt example_config ["shared/userdb"] empty_world
    = (Raise ValueError, empty_world).
Proof. repeat split; vm_compute; reflexivity. Qed.

(** C7. [handle_lookup] replies in one of three forms, each ended by the
    only line break of the reply: [O] and the serialized result when the
    request is of the shared namespace and the lookup it is routed to
    leaves a result that is present and not empty; [N] alone when it
    leaves none, as it does for an address outside of the mail domain;
    [F] alone when the namespace and kind are not ones it routes. It
    replies so on every request that decodes. *)
Theorem handle_lookup_replies (crypt_sha512 : nat → string → string)
    (config : Config) (parts : list string) (w w' : World) (answer : string) :
  handle_lookup crypt_sha512 config parts w = (Return answer, w')
  ↔ ∃ keyname namespace type blob args,
      parts !! 0%nat = Some keyname
      ∧ split_max slash keyname 2 = [namespace; type; blob]
      ∧ list_of (split_and_unescape blob) = Return args
      ∧ ((namespace = "shared"
          ∧ ∃ res, routed crypt_sha512 config w type args res w'
                   ∧ truthy res = true
                   ∧ answer = "O" +:+ Json.dumps res +:+ str1 newline
                   ∧ contains newline (Json.dumps res) = false)
         ∨ (namespace = "shared"
            ∧ ∃ res, routed crypt_sha512 config w type args res w'
                     ∧ truthy res = false
                     ∧ answer = reply_absent)
         ∨ (¬ recognized namespace type
            ∧ answer = reply_failure
            ∧ w' = w)).
Proof.
  split.
  - intros Hrun.
    destruct (handle_lookup_cases crypt_sha512 config parts w)
      as [(e0 & Hm & Hr) | (k & ns & ty & blob & args & Hk & Hs & Ha & Hr)].
    { rewrite Hr in Hrun. discriminate. }
    exists k, ns, ty, blob, args. do 3 (split; [done |]).
    destruct Hr as [(-> & res & w0 & Hrt & Hr) | (Hrec & Hr)];
      rewrite Hr in Hrun; injection Hrun as <- <-.
    + destruct (truthy res) eqn:Ht.
      * left. split; [done |]. exists res. do 2 (split; [done |]).
        split; [| apply dumps_no_newline]. unfold reply. by rewrite Ht.
      * right; left. split; [done |]. exists res. do 2 (split; [done |]).
        unfold reply. by rewrite Ht.
    + right; right. done.
  - intros (k & ns & ty & blob & args & Hk & Hs & Ha & Hforms).
    destruct parts as [|k' rest]; [done |]. injection Hk as ->.
    destruct Hforms as [(-> & res & Hrt & Ht & -> & _)
                       | [(-> & res & Hrt & Ht & ->) | (Hrec & -> & ->)]].
    + rewrite (handle_lookup_routed _ _ _ _ _ _ _ _ _ _ Hs Ha Hrt).
      unfold reply. by rewrite Ht.
    + rewrite (handle_lookup_routed _ _ _ _ _ _ _ _ _ _ Hs Ha Hrt).
      unfold reply. by rewrite Ht.
    + by eapply handle_lookup_other.
Qed.

(** The request of [test_handle_dovecot_protocol_user_not_exists]. *)
Lemma handle_lookup_replies_witness :
  ∃ keyname namespace type blob args,
    ["shared/userdb/foobar@chat.example.org"; "foobar@chat.example.org"]
      !! 0%nat = Some keyname
    ∧ split_max slash keyname 2 = [namespace; type; blob]
    ∧ list_of (split_and_unescape blob) = Return args
    ∧ ((namespace = "shared"
        ∧ ∃ res, routed example_crypt example_config empty_world type args res
                   empty_world
                 ∧ truthy res = true
                 ∧ reply_absent = "O" +:+ Json.dumps res +:+ str1 newline
                 ∧ contains newline (Json.dumps res) = false)
       ∨ (namespace = "shared"
          ∧ ∃ res, routed example_crypt example_config empty_world type args res
                     empty_world
                   ∧ truthy res = false
                   ∧ reply_absent = reply_absent)
       ∨ (¬ recognized namespace type
          ∧ reply_absent = reply_failure
          ∧ empty_world = empty_world)).
Proof.
  apply (proj1 (handle_lookup_replies example_crypt example_config
                  ["shared/userdb/foobar@chat.example.org";
                   "foobar@chat.example.org"]
                  empty_world empty_world reply_absent)).
  vm_compute. reflexivity.
Defined.

(** ** Iteration *)

Lemma length_append (s t : string) :
  String.length (s +:+ t) = (String.length s + String.length t)%nat.
Proof. induction s as [|c s IH]; simpl; [done | by rewrite IH]. Qed.

Lemma append_cancel_r (s s' t : string) : s +:+ t = s' +:+ t → s = s'.
Proof.
  revert s'. induction s as [|c s IH]; intros [|c' s'] H; simpl in H.
  - done.
  - apply (f_equal String.length) in H. simpl in H.
    rewrite length_append in H. lia.
  - apply (f_equal String.length) in H. simpl in H.
    rewrite length_append in H. lia.
  - injection H as -> H. by rewrite (IH _ H).
Qed.

Lemma iterate_line_inj : Inj (=) (=) iterate_line.
Proof.
  intros u u' H. unfold iterate_line in H. simpl in H.
  injection H as H. by apply append_cancel_r in H.
Qed.

Lemma established_stored (config : Config) (w : World) (addr : string) :
  established config w addr ↔ is_Some (stored_password config w addr).
Proof.
  unfold established. rewrite lookup_userdb_run. split.
  - intros (record & Hne & [= <-]).
    by destruct (stored_password config w addr).
  - intros [text ->]. eexists. split; [| done]. by rewrite userdb_record.
Qed.

Lemma iter_userdb_run (config : Config) (w : World) :
  iter_userdb config w
  = (Return (filter (λ name, contains at_sign name = true)
               (map_to_list (mailboxes w)).*1), w).
Proof. reflexivity. Qed.

(** Where the entries named like an address are the ones with a password
    file, the names listed are the established addresses. *)
Lemma iter_userdb_marked (config : Config) (w : World) (addr : string) :
  entries_marked w →
  addr ∈ filter (λ name, contains at_sign name = true)
           (map_to_list (mailboxes w)).*1
  ↔ established config w addr.
Proof.
  intros Hmark. rewrite established_stored, list_elem_of_filter, list_elem_of_fmap.
  unfold stored_password, get_user_maildir. split.
  - intros (Hat & [name d] & -> & Hd%elem_of_map_to_list). simpl in *.
    rewrite Hd. by apply (Hmark _ _ Hd).
  - intros [text Hd]. destruct (mailboxes w !! addr) as [d|] eqn:Hm; [| done].
    split; [apply (Hmark _ _ Hm); by eexists |].
    exists (addr, d). split; [done |]. by apply elem_of_map_to_list.
Qed.

(** C8, as amended. In every world in which the name of an entry of the
    mailbox directory has an [@] exactly when the entry holds a password
    file (as in every world reached by creating accounts), and in which
    exactly the accounts A1..Ak are established, an iterate request whose
    third field is [shared/userdb/] is answered with one line
    [Oshared/userdb/<address>], a tab and a line break per established
    address, followed by a line break: the lines are those of A1..Ak,
    each once, in the order the directory is listed. *)
Theorem handle_iterate_complete (config : Config) (parts : list string)
    (w : World) :
  entries_marked w →
  parts !! 2%nat = Some "shared/userdb/" →
  ∃ users,
    handle_iterate config parts w
    = (Return (Some (join EmptyString (iterate_line <$> users) +:+ str1 newline)),
       w)
    ∧ NoDup (iterate_line <$> users)
    ∧ (∀ addr, addr ∈ users ↔ established config w addr)
    ∧ (∀ accounts,
         NoDup accounts →
         (∀ addr, addr ∈ accounts ↔ established config w addr) →
         users ≡ₚ accounts).
Proof.
  intros Hmark Hparts.
  set (users := filter (λ name, contains at_sign name = true)
                  (map_to_list (mailboxes w)).*1).
  assert (NoDup users) as Hnodup.
  { apply NoDup_filter, NoDup_fst_map_to_list. }
  exists users. repeat apply conj.
  - unfold handle_iterate, bind, lift, index. by rewrite Hparts.
  - pose proof iterate_line_inj. by apply NoDup_fmap_2.
  - intros addr. by apply iter_userdb_marked.
  - intros accounts Hnd Hmem. apply NoDup_Permutation; [done | done |].
    intros addr. rewrite Hmem. by apply iter_userdb_marked.
Qed.

(** Two accounts beside an entry that is none: the entry is passed over. *)
Lemma handle_iterate_complete_witness :
  ∃ users,
    handle_iterate example_config ["0"; "0"; "shared/userdb/"] stray_world
    = (Return (Some (join EmptyString (iterate_line <$> users) +:+ str1 newline)),
       stray_world)
    ∧ NoDup (iterate_line <$> users)
    ∧ (∀ addr, addr ∈ users ↔ established example_config stray_world addr)
    ∧ (∀ accounts,
         NoDup accounts →
         (∀ addr, addr ∈ accounts
                  ↔ established example_config stray_world addr) →
         users ≡ₚ accounts).
Proof.
  apply (handle_iterate_complete example_config ["0"; "0"; "shared/userdb/"]
           stray_world).
  - apply (bool_decide_unpack _). vm_compute. exact I.
  - reflexivity.
Defined.

(** C8 fails on the code in two ways, since [iter_userdb] goes by the
    names of the entries and [lookup_userdb] by the password file. An
    entry with an [@] in its name and no password file is listed though
    the address is not established; an entry with a password file and no
    [@] in its name is established and is not listed. *)
Lemma handle_iterate_not_the_established :
  (¬ established example_config ghost_world "ghost@chat.example.org"
   ∧ lookup_userdb example_config "ghost@chat.example.org" ghost_world
     = (Return [], ghost_world)
   ∧ handle_iterate example_config ["0"; "0"; "shared/userdb/"] ghost_world
     = (Return (Some (iterate_line "ghost@chat.example.org" +:+ str1 newline)),
        ghost_world))
  ∧ (established example_config postmaster_world "postmaster"
     ∧ lookup_userdb example_config "postmaster" postmaster_world
       = (Return [("addr", "postmaster");
                  ("password", "{SHA512-CRYPT}$6$q9mr3faue");
                  ("home", "/home/vmail/mail/chat.example.org/postmaster");
                  ("uid", "vmail"); ("gid", "vmail")], postmaster_world)
     ∧ handle_iterate example_config ["0"; "0"; "shared/userdb/"]
         postmaster_world
       = (Return (Some (str1 newline)), postmaster_world)).
Proof.
  split.
  - split; [| split; vm_compute; reflexivity].
    rewrite established_stored. vm_compute. by intros [? ?].
  - split; [| split; vm_compute; reflexivity].
    rewrite established_stored. vm_compute. by eexists.
Qed.

(** ** Worlds that the module reaches *)

Lemma address_parts_at (user localpart domain : string) :
  address_parts user localpart domain → contains at_sign user = true.
Proof.
  intros (-> & _ & _). rewrite contains_append. simpl.
  by rewrite orb_true_r.
Qed.

(** Creating accounts keeps the mailbox directory a directory of
    accounts. *)
Lemma accounts_only_lookup_passdb (crypt_sha512 : nat → string → string)
    (config : Config) (user pw : string) (w : World) :
  accounts_only w →
  accounts_only (lookup_passdb crypt_sha512 config user pw w).2.
Proof.
  intros Hacc.
  destruct (stored_password config w user) as [text|] eqn:H.
  { by rewrite (lookup_passdb_present _ _ _ _ _ _ H). }
  destruct (policy_total config user pw w) as ([] & ws & Hrun).
  - assert (all_checks_pass config w user pw) as Hpass.
    { apply policy_accepts_inv. by rewrite Hrun. }
    rewrite (lookup_passdb_absent_allowed _ _ _ _ _ H Hpass). simpl.
    unfold set_user_password, get_user_maildir; simpl.
    unfold stored_password, get_user_maildir in H.
    destruct Hpass as (_ & _ & l & d & Hparts%address_parts_at & _).
    destruct (mailboxes w !! user) as [[[text|]]|] eqn:Hdir; [done | |];
      simpl; (apply map_Forall_insert_2; [by eauto | done]).
  - by rewrite (lookup_passdb_absent_rejected _ _ _ _ _ _ H Hrun).
Qed.

Lemma accounts_only_handle_lookup (crypt_sha512 : nat → string → string)
    (config : Config) (parts : list string) (w : World) :
  accounts_only w →
  accounts_only (handle_lookup crypt_sha512 config parts w).2.
Proof.
  intros Hacc.
  destruct (handle_lookup_cases crypt_sha512 config parts w)
    as [(e0 & _ & ->) | (k & ns & ty & blob & args & _ & _ & _ & Hr)]; [done |].
  destruct Hr as [(_ & res & w' & Hrt & ->) | (_ & ->)]; [| done]. simpl.
  destruct Hrt as [user ? d w' _ _ Hrun | | pw user ? r w' _ _ _ Hrun |];
    try done.
  - rewrite lookup_userdb_run in Hrun. by injection Hrun as _ <-.
  - pose proof (accounts_only_lookup_passdb crypt_sha512 config user pw w Hacc)
      as Hacc'.
    by rewrite Hrun in Hacc'.
Qed.

(** Every world that the module reaches from an empty mailbox directory
    holds accounts only. *)
Lemma reached_accounts_only (crypt_sha512 : nat → string → string)
    (config : Config) (w : World) :
  reached crypt_sha512 config w → accounts_only w.
Proof.
  induction 1 as [marker | parts w _ IH | user pw w _ IH | marker w _ IH].
  - apply map_Forall_empty.
  - by apply accounts_only_handle_lookup.
  - by apply accounts_only_lookup_passdb.
  - exact IH.
Qed.

Lemma accounts_only_marked (w : World) : accounts_only w → entries_marked w.
Proof.
  intros Hacc name d Hd. destruct (Hacc _ _ Hd) as [Hat Hpw]. by split.
Qed.

(** In every world that the module reaches from an empty mailbox
    directory the entries named like an address are the ones with a
    password file. *)
Lemma reached_entries_marked (crypt_sha512 : nat → string → string)
    (config : Config) (w : World) :
  reached crypt_sha512 config w → entries_marked w.
Proof. intros Hr. by eapply accounts_only_marked, reached_accounts_only. Qed.

(** ** Racing calls *)

Lemma lookup_passdb_create_run (crypt_sha512 : nat → string → string)
    (config : Config) (user pw : string) (w : World) :
  lookup_passdb_create crypt_sha512 config user pw w
  = let enc := "{SHA512-CRYPT}" +:+ crypt_sha512 (crypt_calls w) pw in
    (Return (Returned (Some (get_user_dict config user (Some enc)))),
     (set_user_password config user enc
        (encrypt_password crypt_sha512 pw w).2).2).
Proof.
  unfold lookup_passdb_create, bind, ret, set_user_password, get_user_maildir.
  simpl. by destruct (mailboxes w !! user) as [[[text|]]|].
Qed.

(** A stored hash survives the store's creation. *)
Lemma set_user_password_keeps (config : Config) (user enc addr hash : string)
    (w : World) :
  stored_password config w addr = Some hash →
  stored_password config (set_user_password config user enc w).2 addr
  = Some hash.
Proof.
  unfold stored_password, set_user_password, get_user_maildir.
  destruct (mailboxes w !! user) as [[[text|]]|] eqn:Hdir; simpl; [done | |];
    (destruct (decide (user = addr)) as [<- | Hne];
     [by rewrite Hdir | by rewrite lookup_insert_ne]).
Qed.

Lemma lookup_passdb_check_run (config : Config) (user pw : string)
    (w : World) :
  ∃ r ws, lookup_passdb_check config user pw w = (Return r, logged w ws).
Proof.
  unfold lookup_passdb_check, bind. rewrite lookup_userdb_run. simpl.
  destruct (stored_password config w user) as [text|].
  { eexists _, []. by rewrite logged_nil. }
  simpl. destruct (policy_total config user pw w) as ([] & ws & ->); simpl;
    by eexists _, ws.
Qed.

Lemma racer_step_keeps (crypt_sha512 : nat → string → string)
    (config : Config) (r : racer) (addr hash : string) (w : World) :
  stored_password config w addr = Some hash →
  stored_password config (racer_step crypt_sha512 config r w).2 addr
  = Some hash.
Proof.
  intros H. destruct r as [user pw | user pw | res | e]; simpl; try done.
  - by destruct (lookup_passdb_check_run config user pw w) as (r & ws & ->).
  - rewrite lookup_passdb_create_run. simpl. by apply set_user_password_keeps.
Qed.

(** A racer that runs alone, its check and then its creation, does what
    [lookup_passdb] does. *)
Lemma racer_alone (crypt_sha512 : nat → string → string) (config : Config)
    (user pw : string) (w w' : World) (res : option dict) :
  lookup_passdb crypt_sha512 config user pw w = (Return res, w') →
  run_schedule crypt_sha512 config [0; 0]%nat [Calling user pw] w
  = ([Returned res], w').
Proof.
  unfold lookup_passdb, run_schedule, racer_step, lookup_passdb_check,
    lookup_passdb_create, bind. simpl.
  rewrite lookup_userdb_run. simpl.
  destruct (stored_password config w user) as [text|]; simpl.
  { by intros [= <- <-]. }
  destruct (policy_total config user pw w) as ([] & ws & ->); simpl.
  - unfold set_user_password, get_user_maildir; simpl.
    destruct (mailboxes w !! user) as [[[text|]]|]; simpl; by intros [= <- <-].
  - by intros [= <- <-].
Qed.

Lemma run_schedule_keeps (crypt_sha512 : nat → string → string)
    (config : Config) (schedule : list nat) (pool : list racer) (w : World)
    (addr hash : string) :
  stored_password config w addr = Some hash →
  stored_password config (run_schedule crypt_sha512 config schedule pool w).2
    addr = Some hash.
Proof.
  revert pool w. induction schedule as [|i schedule IH]; intros pool w H;
    simpl; [done |].
  destruct (pool !! i) as [r|]; [| by apply IH].
  pose proof (racer_step_keeps crypt_sha512 config r addr hash w H) as Hstep.
  destruct (racer_step crypt_sha512 config r w) as [[r'|e] w1]; by apply IH.
Qed.

Lemma run_schedule_creating (crypt_sha512 : nat → string → string)
    (config : Config) (schedule : list nat) (pool : list racer) (w : World)
    (i : nat) (user pw : string) :
  (pool !! i = Some (Creating user pw)
   ∨ ∃ r, pool !! i = Some r ∧ own_record crypt_sha512 config user pw r) →
  (run_schedule crypt_sha512 config schedule pool w).1 !! i
  = Some (Creating user pw)
  ∨ ∃ r, (run_schedule crypt_sha512 config schedule pool w).1 !! i = Some r
         ∧ own_record crypt_sha512 config user pw r.
Proof.
  revert pool w. induction schedule as [|j schedule IH]; intros pool w H;
    simpl; [done |].
  destruct (pool !! j) as [rj|] eqn:Hj; [| by apply IH].
  destruct (decide (j = i)) as [-> | Hne].
  - assert (i < length pool)%nat as Hlt by (by eapply lookup_lt_Some).
    destruct H as [H | (r & H & Hown)]; rewrite H in Hj; injection Hj as <-.
    + simpl. rewrite lookup_passdb_create_run. simpl. apply IH. right.
      eexists. split; [by apply list_lookup_insert_eq |]. by eexists.
    + destruct Hown as [n ->]. simpl. apply IH. right.
      eexists. split; [by apply list_lookup_insert_eq |]. by eexists.
  - destruct (racer_step crypt_sha512 config rj w) as [[r'|e] w1];
      apply IH; by rewrite list_lookup_insert_ne.
Qed.

Lemma lookup_passdb_check_cases (crypt_sha512 : nat → string → string)
    (config : Config) (user pw : string) (w : World) :
  ∃ r ws,
    lookup_passdb_check config user pw w = (Return r, logged w ws)
    ∧ r ≠ Calling user pw
    ∧ racer_outcome crypt_sha512 config user pw w r.
Proof.
  unfold lookup_passdb_check, bind, racer_outcome.
  rewrite lookup_userdb_run. simpl.
  destruct (stored_password config w user) as [text|] eqn:H.
  { eexists _, []. rewrite logged_nil. do 2 (split; [done |]).
    do 3 right. left. by exists text. }
  simpl. destruct (policy_total config user pw w) as ([] & ws & ->); simpl;
    eexists _, ws; do 2 (split; [done |]); auto.
Qed.

Lemma racer_outcome_keeps (crypt_sha512 : nat → string → string)
    (config : Config) (user pw : string) (w w' : World) (r : racer) :
  (∀ hash, stored_password config w user = Some hash →
           stored_password config w' user = Some hash) →
  racer_outcome crypt_sha512 config user pw w r →
  racer_outcome crypt_sha512 config user pw w' r.
Proof.
  intros Hkeep [-> | [-> | [-> | [(hash & Hs & ->) | Hown]]]];
    unfold racer_outcome; auto.
  do 3 right. left. exists hash. auto.
Qed.

Lemma run_schedule_outcome (crypt_sha512 : nat → string → string)
    (config : Config) (schedule : list nat) (pool : list racer) (w : World)
    (i : nat) (user pw : string) :
  (∃ r, pool !! i = Some r ∧ racer_outcome crypt_sha512 config user pw w r) →
  ∃ r, (run_schedule crypt_sha512 config schedule pool w).1 !! i = Some r
       ∧ racer_outcome crypt_sha512 config user pw
           (run_schedule crypt_sha512 config schedule pool w).2 r.
Proof.
  revert pool w. induction schedule as [|j schedule IH];
    intros pool w (r & Hi & Hout); simpl; [by exists r |].
  destruct (pool !! j) as [rj|] eqn:Hj; [| apply IH; by exists r].
  pose proof (λ hash, racer_step_keeps crypt_sha512 config rj user hash w)
    as Hkeep.
  destruct (decide (j = i)) as [-> | Hne].
  - assert (i < length pool)%nat as Hlt by (by eapply lookup_lt_Some).
    rewrite Hi in Hj. injection Hj as <-.
    destruct Hout as [-> | [-> | [-> | [(hash & Hs & ->) | [n ->]]]]].
    + simpl in *.
      destruct (lookup_passdb_check_cases crypt_sha512 config user pw w)
        as (r' & ws & Hrun & _ & Hout).
      rewrite Hrun in *. apply IH. exists r'.
      split; [by apply list_lookup_insert_eq |].
      by eapply racer_outcome_keeps.
    + simpl in *. rewrite lookup_passdb_create_run in *. simpl in *.
      apply IH. eexists. split; [by apply list_lookup_insert_eq |].
      do 4 right. by eexists.
    + simpl. apply IH. eexists. split; [by apply list_lookup_insert_eq |].
      unfold racer_outcome. auto.
    + simpl. apply IH. eexists. split; [by apply list_lookup_insert_eq |].
      do 3 right. left. by exists hash.
    + simpl. apply IH. eexists. split; [by apply list_lookup_insert_eq |].
      do 4 right. by eexists.
  - destruct (racer_step crypt_sha512 config rj w) as [[r'|e] w1];
      apply IH; exists r; (split; [by rewrite list_lookup_insert_ne |]);
      by eapply racer_outcome_keeps.
Qed.

(** C2, as amended. However calls of [lookup_passdb] race, with steps of
    other calls between the check of a call and its creation, at most
    one hash becomes the account of record: a stored hash is not
    replaced, since the store creates only if absent. But [lookup_passdb]
    is a check followed by a separate creation and does not read the
    store again: a call returns nothing, the record of the stored hash
    (when its check found the account), or the record of its own hash,
    and a call that had found the address absent and allowed returns the
    record of its own hash whatever has been stored in between. *)
Theorem racing_lookup_passdb (crypt_sha512 : nat → string → string)
    (config : Config) (schedule : list nat) (pool : list racer) (w : World) :
  let final := run_schedule crypt_sha512 config schedule pool w in
  (∀ addr hash,
     stored_password config w addr = Some hash →
     stored_password config final.2 addr = Some hash)
  ∧ (∀ i user pw,
       pool !! i = Some (Calling user pw) →
       ∃ r, final.1 !! i = Some r
            ∧ racer_outcome crypt_sha512 config user pw final.2 r)
  ∧ (∀ i user pw,
       pool !! i = Some (Creating user pw) →
       final.1 !! i = Some (Creating user pw)
       ∨ ∃ r, final.1 !! i = Some r
              ∧ own_record crypt_sha512 config user pw r).
Proof.
  intros final. subst final. repeat apply conj.
  - intros addr hash. apply run_schedule_keeps.
  - intros i user pw Hi. apply run_schedule_outcome.
    eexists. split; [done |]. by left.
  - intros i user pw Hi. apply run_schedule_creating. by left.
Qed.

(** C2 fails on the code: two calls for one new address, the checks of
    both before the creation of either. The store keeps the hash of the
    first creation, and the second call returns the record of its own
    hash, not the stored one. *)
Lemma racing_loser_returns_own_record :
  let final :=
    run_schedule example_crypt example_config [0; 1; 0; 1]%nat
      [Calling "newuser12@chat.example.org" "kajdlkajsldk12l3kj1983";
       Calling "newuser12@chat.example.org" "kajdslqwe"] empty_world in
  final.1
  = [Returned
       (Some [("addr", "newuser12@chat.example.org");
              ("home", "/home/vmail/mail/chat.example.org/newuser12@chat.example.org");
              ("uid", "vmail"); ("gid", "vmail");
              ("password", "{SHA512-CRYPT}$6$kajdlkajsldk12l3kj1983")]);
     Returned
       (Some [("addr", "newuser12@chat.example.org");
              ("home", "/home/vmail/mail/chat.example.org/newuser12@chat.example.org");
              ("uid", "vmail"); ("gid", "vmail");
              ("password", "{SHA512-CRYPT}$6$kajdslqwe")])]
  ∧ stored_password example_config final.2 "newuser12@chat.example.org"
    = Some "{SHA512-CRYPT}$6$kajdlkajsldk12l3kj1983".
Proof. vm_compute. split; reflexivity. Qed.

(** ** Runs of the tests of the repository *)

(** [test_handle_dovecot_request]: a password with a backslash, a double
    quote, a single quote and a slash. *)
Example run_handle_dovecot_request :
  (handle_lookup example_crypt example_config
     ["shared/passdb/laksjdlaksjdlak" +:+ String backslash (str1 backslash)
      +:+ "sjdlk" +:+ String backslash (str1 dquote)
      +:+ "12j" +:+ String backslash "'3l1/k2j3123" +:+ str1 dquote
      +:+ "some42123@chat.example.org";
      "some42123@chat.example.org"] empty_world).1
  = Return
      ("O{" +:+ Json.dumps_str "addr" +:+ ": "
       +:+ Json.dumps_str "some42123@chat.example.org" +:+ ", "
       +:+ Json.dumps_str "home" +:+ ": "
       +:+ Json.dumps_str
             "/home/vmail/mail/chat.example.org/some42123@chat.example.org"
       +:+ ", " +:+ Json.dumps_str "uid" +:+ ": " +:+ Json.dumps_str "vmail"
       +:+ ", " +:+ Json.dumps_str "gid" +:+ ": " +:+ Json.dumps_str "vmail"
       +:+ ", " +:+ Json.dumps_str "password" +:+ ": "
       +:+ Json.dumps_str
             ("{SHA512-CRYPT}$6$laksjdlaksjdlak" +:+ str1 backslash +:+ "sjdlk"
              +:+ str1 dquote +:+ "12j'3l1/k2j3123")
       +:+ "}" +:+ str1 newline).
Proof. vm_compute. reflexivity. Qed.

(** [test_dont_overwrite_password_on_wrong_login]: the second call, with
    another password, returns the hash of the first. *)
Example run_dont_overwrite_password :
  let calls :=
    run_calls example_crypt example_config "newuser12@chat.example.org"
      ["kajdlkajsldk12l3kj1983"; "kajdslqwe"] empty_world in
  (λ r, match r with
        | Return (Some d) => dict_get d "password"
        | _ => None
        end) <$> calls.1
  = [Some "{SHA512-CRYPT}$6$kajdlkajsldk12l3kj1983";
     Some "{SHA512-CRYPT}$6$kajdlkajsldk12l3kj1983"].
Proof. vm_compute. reflexivity. Qed.

(** [test_nocreate_file]: with the marker file no account is created. *)
Example run_nocreate_file :
  let w :=
    {| nocreate_file := true; mailboxes := ∅; log := []; crypt_calls := 0 |} in
  let created :=
    lookup_passdb example_crypt example_config "newuser12@chat.example.org"
      "zequ0Aimuchoodaechik" w in
  created.1 = Return None
  ∧ (lookup_userdb example_config "newuser12@chat.example.org" created.2).1
    = Return []
  ∧ log created.2 = [blocked_nocreate].
Proof. vm_compute. repeat split; reflexivity. Qed.

(** [test_handle_dovecot_protocol_iterate]: both accounts are listed, and
    the reply ends in an empty line. *)
Example run_iterate :
  ∃ users,
    (handle_iterate example_config ["0"; "0"; "shared/userdb/"] iterate_world).1
    = Return (Some (join EmptyString (iterate_line <$> users) +:+ str1 newline))
    ∧ users ≡ₚ ["asdf00000@chat.example.org"; "asdf11111@chat.example.org"].
Proof.
  first
    [ exists ["asdf00000@chat.example.org"; "asdf11111@chat.example.org"];
      split; [vm_compute; reflexivity | reflexivity]
    | exists ["asdf11111@chat.example.org"; "asdf00000@chat.example.org"];
      split; [vm_compute; reflexivity | apply Permutation_swap] ].
Qed.

(** * Further properties *)

(** ** The tokenizer on any input *)

Lemma ends_with_tail (c d : ascii) (s : string) :
  ends_with c (String d s) = false → ends_with c s = false.
Proof. by destruct s. Qed.

Lemma lone_escape_run (n : nat) :
  ends_in_lone_escape (repeat_char backslash (2 * n)) = false
  ∧ ends_in_lone_escape (repeat_char backslash (S (2 * n))) = true.
Proof.
  induction n as [|n [IHe IHo]]; [done |].
  replace (2 * S n)%nat with (S (S (2 * n))) by lia.
  split; [exact IHe | exact IHo].
Qed.

Lemma lone_escape_run_odd (n : nat) :
  ends_in_lone_escape (repeat_char backslash n) = Nat.odd n.
Proof.
  destruct (Nat.Even_or_Odd n) as [[k ->] | [k ->]].
  - rewrite (proj1 (lone_escape_run k)). symmetry.
    apply Nat.odd_even. 
  - replace (2 * k + 1)%nat with (S (2 * k)) by lia.
    rewrite (proj2 (lone_escape_run k)). symmetry.
    rewrite Nat.odd_succ. apply Nat.even_even.
Qed.

(** After a prefix that does not end in a backslash, the blob ends in a
    lone escape character exactly when the backslashes that follow are
    odd in number. *)
Lemma lone_escape_trailing (p : string) (n : nat) :
  ends_with backslash p = false →
  ends_in_lone_escape (p +:+ repeat_char backslash n) = Nat.odd n.
Proof.
  induction p as [| |d s IH|c s Hc IH] using tokenizer_ind; intros Hp.
  - apply lone_escape_run_odd.
  - done.
  - simpl. apply IH. by do 2 apply ends_with_tail in Hp.
  - change (ends_in_lone_escape (String c s +:+ repeat_char backslash n))
      with (if Ascii.eqb c backslash
            then match s +:+ repeat_char backslash n with
                 | EmptyString => true
                 | String _ rest' => ends_in_lone_escape rest'
                 end
            else ends_in_lone_escape (s +:+ repeat_char backslash n)).
    rewrite Hc. apply IH. by apply ends_with_tail in Hp.
Qed.

(** X1. Whatever precedes them, the tokenizer fails with [IndexError]
    exactly on the inputs that end in an odd number of backslashes; on an
    even number it returns at least one segment. *)
Theorem split_and_unescape_trailing_backslashes (p : string) (n : nat) :
  ends_with backslash p = false →
  (list_of (split_and_unescape (p +:+ repeat_char backslash n))
   = Raise IndexError ↔ Nat.odd n = true)
  ∧ (Nat.odd n = false →
     ∃ a args,
       list_of (split_and_unescape (p +:+ repeat_char backslash n))
       = Return (a :: args)).
Proof.
  intros Hp. rewrite split_and_unescape_eq.
  pose proof (split_and_unescape_loop_outcome
                (p +:+ repeat_char backslash n) EmptyString) as Hout.
  rewrite (lone_escape_trailing p n Hp) in Hout.
  destruct (Nat.odd n).
  - split; [done | discriminate].
  - destruct Hout as (a & args & ->). split; [done |]. by exists a, args.
Qed.

Lemma split_and_unescape_trailing_backslashes_witness :
  (list_of (split_and_unescape ("pass" +:+ repeat_char backslash 3))
   = Raise IndexError ↔ Nat.odd 3 = true)
  ∧ (Nat.odd 3 = false →
     ∃ a args,
       list_of (split_and_unescape ("pass" +:+ repeat_char backslash 3))
       = Return (a :: args)).
Proof.
  apply (split_and_unescape_trailing_backslashes "pass" 3). reflexivity.
Defined.

Lemma list_of_return {A : Type} (g : generated A) (l : list A) :
  list_of g = Return l → g = (l, None).
Proof. destruct g as [l' [e|]]; unfold list_of; simpl; congruence. Qed.

(** A separator after an input that tokenizes starts the tokenizer
    afresh on what follows. *)
Lemma split_and_unescape_loop_separator (s t out : string) (l : list string) :
  list_of (split_and_unescape_loop s out) = Return l →
  split_and_unescape_loop (s +:+ String dquote t) out
  = (l ++ (split_and_unescape_loop t EmptyString).1,
     (split_and_unescape_loop t EmptyString).2).
Proof.
  revert out l. induction s as [| |d s IH|c s Hc IH] using tokenizer_ind;
    intros out l Hl.
  - injection Hl as <-. reflexivity.
  - discriminate.
  - simpl in *. by apply IH.
  - change (split_and_unescape_loop (String c s +:+ String dquote t) out) with
      (if Ascii.eqb c backslash
       then match s +:+ String dquote t with
            | EmptyString => ([], Some IndexError)
            | String d rest' => split_and_unescape_loop rest' (snoc out d)
            end
       else if Ascii.eqb c dquote
            then yield out (split_and_unescape_loop (s +:+ String dquote t)
                              EmptyString)
            else split_and_unescape_loop (s +:+ String dquote t) (snoc out c)).
    change (split_and_unescape_loop (String c s) out) with
      (if Ascii.eqb c backslash
       then match s with
            | EmptyString => ([], Some IndexError)
            | String d rest' => split_and_unescape_loop rest' (snoc out d)
            end
       else if Ascii.eqb c dquote
            then yield out (split_and_unescape_loop s EmptyString)
            else split_and_unescape_loop s (snoc out c)) in Hl.
    rewrite Hc in *. destruct (Ascii.eqb c dquote).
    + rewrite list_of_yield in Hl.
      destruct (list_of (split_and_unescape_loop s EmptyString)) as [l0|e] eqn:Hs;
        [| discriminate].
      injection Hl as <-. by rewrite (IH _ _ Hs).
    + by apply IH.
Qed.

(** X2. The separator composes: when the tokenizer reads [s] into the
    segments [l], it reads [s], a double quote and [t] into [l] followed
    by the segments of [t], and fails exactly as it fails on [t]. *)
Theorem split_and_unescape_separator (s t : string) (l : list string) :
  list_of (split_and_unescape s) = Return l →
  list_of (split_and_unescape (s +:+ String dquote t))
  = match list_of (split_and_unescape t) with
    | Return l' => Return (l ++ l')
    | Raise e => Raise e
    end.
Proof.
  rewrite !split_and_unescape_eq. intros Hl.
  rewrite (split_and_unescape_loop_separator _ _ _ _ Hl).
  unfold list_of; simpl.
  by destruct (split_and_unescape_loop t EmptyString).2.
Qed.

Lemma split_and_unescape_separator_witness :
  list_of (split_and_unescape
             (("q9mr" +:+ String backslash (String dquote "3faue"))
              +:+ String dquote "asdf12345@chat.example.org"))
  = match list_of (split_and_unescape "asdf12345@chat.example.org") with
    | Return l' => Return (["q9mr" +:+ String dquote "3faue"] ++ l')
    | Raise e => Raise e
    end.
Proof.
  apply (split_and_unescape_separator
           ("q9mr" +:+ String backslash (String dquote "3faue"))
           "asdf12345@chat.example.org"
           ["q9mr" +:+ String dquote "3faue"]).
  reflexivity.
Defined.

(** ** What the policy looks at *)

(** X3. The policy does not look at the domain of the address, nor at
    the password beyond its length: for one localpart, two domains and
    two passwords of one length get the same answer and the same
    warning. *)
Theorem is_allowed_to_create_ignores_domain (config : Config)
    (localpart domain domain' pw pw' : string) (w : World) :
  contains at_sign localpart = false →
  contains at_sign domain = false →
  contains at_sign domain' = false →
  String.length pw = String.length pw' →
  is_allowed_to_create config (localpart +:+ String at_sign domain) pw w
  = is_allowed_to_create config (localpart +:+ String at_sign domain') pw' w.
Proof.
  intros Hl Hd Hd' Hlen. unfold is_allowed_to_create, bind, len.
  rewrite !(split_append _ _ _ Hl), (split_none _ _ Hd), (split_none _ _ Hd').
  by rewrite Hlen.
Qed.

Lemma is_allowed_to_create_ignores_domain_witness :
  is_allowed_to_create example_config
    ("012345" +:+ String at_sign "chat.example.org") "q9mr3faue" empty_world
  = is_allowed_to_create example_config
      ("012345" +:+ String at_sign "elsewhere.example") "123456789" empty_world.
Proof.
  apply (is_allowed_to_create_ignores_domain example_config "012345"
           "chat.example.org" "elsewhere.example" "q9mr3faue" "123456789"
           empty_world); reflexivity.
Defined.

(** ** The lookups, from any world *)

(** X4. [lookup_userdb] only reads: it raises nothing and leaves the
    world as it is. Its result is empty exactly when the address has no
    password file; otherwise it holds the address as [addr] and the text
    of the file as [password]. *)
Theorem lookup_userdb_reads (config : Config) (user : string) (w : World) :
  ∃ d,
    lookup_userdb config user w = (Return d, w)
    ∧ (d = [] ↔ stored_password config w user = None)
    ∧ (∀ text,
         stored_password config w user = Some text →
         dict_get d "addr" = Some user ∧ dict_get d "password" = Some text).
Proof.
  eexists. split; [apply lookup_userdb_run |].
  destruct (stored_password config w user) as [text|].
  - rewrite userdb_record. split; [done |]. by intros ? [= <-].
  - done.
Qed.

(** X5. [lookup_passdb] returns [None] exactly when the address has no
    password file and the policy rejects the request; and when it returns
    a record, the record is not empty. *)
Theorem lookup_passdb_none (crypt_sha512 : nat → string → string)
    (config : Config) (user pw : string) (w : World) :
  ((lookup_passdb crypt_sha512 config user pw w).1 = Return None
   ↔ stored_password config w user = None
     ∧ (is_allowed_to_create config user pw w).1 = Return false)
  ∧ ∀ r, (lookup_passdb crypt_sha512 config user pw w).1 = Return (Some r) →
         r ≠ [].
Proof.
  split.
  - destruct (stored_password config w user) as [text|] eqn:H.
    { rewrite (lookup_passdb_present _ _ _ _ _ _ H). simpl.
      split; [done | by intros [? _]]. }
    destruct (policy_total config user pw w) as ([] & ws & Hrun).
    + assert (all_checks_pass config w user pw) as Hpass.
      { apply policy_accepts_inv. by rewrite Hrun. }
      rewrite (lookup_passdb_absent_allowed _ _ _ _ _ H Hpass), Hrun. simpl.
      split; [done | by intros [_ ?]].
    + rewrite (lookup_passdb_absent_rejected _ _ _ _ _ _ H Hrun), Hrun.
      done.
  - intros r Hrun.
    destruct (lookup_passdb_total crypt_sha512 config user pw w)
      as (r0 & w' & Hr0 & Hne).
    rewrite Hr0 in Hrun. simpl in Hrun. injection Hrun as ->.
    intros ->. done.
Qed.

Lemma created_world (crypt_sha512 : nat → string → string) (config : Config)
    (user pw : string) (w : World) :
  stored_password config w user = None →
  all_checks_pass config w user pw →
  let enc := "{SHA512-CRYPT}" +:+ crypt_sha512 (crypt_calls w) pw in
  lookup_passdb crypt_sha512 config user pw w
  = (Return (Some (get_user_dict config user (Some enc))),
     {| nocreate_file := nocreate_file w;
        mailboxes := <[user := {| password_file := Some enc |}]> (mailboxes w);
        log := log w;
        crypt_calls := S (crypt_calls w) |}).
Proof.
  intros H Hpass. rewrite (lookup_passdb_absent_allowed _ _ _ _ _ H Hpass).
  unfold stored_password, set_user_password, get_user_maildir in *. simpl.
  by destruct (mailboxes w !! user) as [[[text|]]|].
Qed.

(** The record returned on creation and the record read back hold the
    same value under every key. *)
Lemma created_record_read_back (config : Config) (user enc k : string) :
  dict_get (get_user_dict config user (Some enc)) k
  = dict_get (dict_update (dict_of [("addr", user); ("password", enc)])
                (get_user_dict config user None)) k.
Proof.
  rewrite userdb_record.
  change (get_user_dict config user (Some enc))
    with [("addr", user); ("home", mailboxes_dir config +:+ "/" +:+ user);
          ("uid", "vmail"); ("gid", "vmail"); ("password", enc)].
  cbn [dict_get].
  repeat match goal with
         | |- context [String.eqb ?a k] =>
             destruct (String.eqb_spec a k) as [<- | ?]; try done
         end.
Qed.

(** X6. For an address with no password file and a request that passes
    the policy, [lookup_passdb] hashes the password once, stores the hash
    under its scheme tag and returns a record with that hash; a
    [lookup_userdb] that follows finds the account, with the same value
    under every key as the record returned on creation. *)
Theorem lookup_passdb_creates (crypt_sha512 : nat → string → string)
    (config : Config) (user pw : string) (w : World) :
  stored_password config w user = None →
  all_checks_pass config w user pw →
  ∃ r w' r',
    lookup_passdb crypt_sha512 config user pw w = (Return (Some r), w')
    ∧ dict_get r "addr" = Some user
    ∧ dict_get r "password"
      = Some ("{SHA512-CRYPT}" +:+ crypt_sha512 (crypt_calls w) pw)
    ∧ stored_password config w' user
      = Some ("{SHA512-CRYPT}" +:+ crypt_sha512 (crypt_calls w) pw)
    ∧ crypt_calls w' = S (crypt_calls w)
    ∧ lookup_userdb config user w' = (Return r', w')
    ∧ (∀ k, dict_get r k = dict_get r' k).
Proof.
  intros H Hpass. eexists _, _, _.
  split; [by apply created_world |].
  do 2 (split; [done |]).
  assert (∀ m : gmap string Maildir, ∀ enc,
            stored_password config
              {| nocreate_file := nocreate_file w;
                 mailboxes := <[user := {| password_file := Some enc |}]> m;
                 log := log w; crypt_calls := S (crypt_calls w) |} user
            = Some enc) as Hstored.
  { intros m enc. unfold stored_password, get_user_maildir. simpl.
    by rewrite lookup_insert_eq. }
  split; [apply Hstored |]. split; [done |].
  split; [by rewrite lookup_userdb_run, Hstored |].
  intros k. apply created_record_read_back.
Qed.

Lemma lookup_passdb_creates_witness :
  ∃ r w' r',
    lookup_passdb example_crypt example_config "asdf12345@chat.example.org"
      "q9mr3faue" empty_world = (Return (Some r), w')
    ∧ dict_get r "addr" = Some "asdf12345@chat.example.org"
    ∧ dict_get r "password"
      = Some ("{SHA512-CRYPT}"
              +:+ example_crypt (crypt_calls empty_world) "q9mr3faue")
    ∧ stored_password example_config w' "asdf12345@chat.example.org"
      = Some ("{SHA512-CRYPT}"
              +:+ example_crypt (crypt_calls empty_world) "q9mr3faue")
    ∧ crypt_calls w' = S (crypt_calls empty_world)
    ∧ lookup_userdb example_config "asdf12345@chat.example.org" w'
      = (Return r', w')
    ∧ (∀ k, dict_get r k = dict_get r' k).
Proof.
  apply (lookup_passdb_creates example_crypt example_config
           "asdf12345@chat.example.org" "q9mr3faue" empty_world).
  - reflexivity.
  - split; [reflexivity |]. split; [vm_compute; discriminate |].
    exists "asdf12345", "chat.example.org".
    repeat split; try reflexivity; vm_compute; discriminate.
Defined.

Lemma run_calls_established (crypt_sha512 : nat → string → string)
    (config : Config) (user hash : string) (pws : list string) (w : World) :
  stored_password config w user = Some hash →
  run_calls crypt_sha512 config user pws w
  = (replicate (length pws)
       (Return (Some (dict_update
                        (dict_of [("addr", user); ("password", hash)])
                        (get_user_dict config user None)))), w).
Proof.
  intros H. induction pws as [|pw pws IH]; [done |]. simpl.
  by rewrite (lookup_passdb_present _ _ _ _ _ _ H), IH.
Qed.

(** X7. The first creation wins: after a call that creates the account,
    any number of further calls for the address, with whatever
    passwords, each return the record of the first hash and leave the
    world as the creation left it. *)
Theorem lookup_passdb_first_creation_wins
    (crypt_sha512 : nat → string → string) (config : Config)
    (user pw : string) (pws : list string) (w : World) :
  stored_password config w user = None →
  all_checks_pass config w user pw →
  ∃ r w' r',
    lookup_passdb crypt_sha512 config user pw w = (Return (Some r), w')
    ∧ run_calls crypt_sha512 config user (pw :: pws) w
      = (Return (Some r) :: replicate (length pws) (Return (Some r')), w')
    ∧ dict_get r' "password"
      = Some ("{SHA512-CRYPT}" +:+ crypt_sha512 (crypt_calls w) pw)
    ∧ (∀ k, dict_get r k = dict_get r' k).
Proof.
  intros H Hpass. eexists _, _, _.
  split; [by apply created_world |].
  split.
  - simpl. rewrite (created_world _ _ _ _ _ H Hpass).
    erewrite run_calls_established; [done |].
    unfold stored_password, get_user_maildir. simpl.
    by rewrite lookup_insert_eq.
  - split; [by rewrite userdb_record |].
    intros k. apply created_record_read_back.
Qed.

Lemma lookup_passdb_first_creation_wins_witness :
  ∃ r w' r',
    lookup_passdb example_crypt example_config "newuser12@chat.example.org"
      "kajdlkajsldk12l3kj1983" empty_world = (Return (Some r), w')
    ∧ run_calls example_crypt example_config "newuser12@chat.example.org"
        ("kajdlkajsldk12l3kj1983" :: ["kajdslqwe"]) empty_world
      = (Return (Some r) :: replicate (length ["kajdslqwe"]) (Return (Some r')),
         w')
    ∧ dict_get r' "password"
      = Some ("{SHA512-CRYPT}"
              +:+ example_crypt (crypt_calls empty_world)
                    "kajdlkajsldk12l3kj1983")
    ∧ (∀ k, dict_get r k = dict_get r' k).
Proof.
  apply (lookup_passdb_first_creation_wins example_crypt example_config
           "newuser12@chat.example.org" "kajdlkajsldk12l3kj1983"
           ["kajdslqwe"] empty_world).
  - reflexivity.
  - split; [reflexivity |]. split; [vm_compute; discriminate |].
    exists "newuser12", "chat.example.org".
    repeat split; try reflexivity; vm_compute; discriminate.
Defined.

(** ** What a lookup request can change *)

(** A request leaves the mailbox directory as it is, or it is a
    [shared/passdb] request that creates the account of its address. *)
Lemma handle_lookup_store (crypt_sha512 : nat → string → string)
    (config : Config) (parts : list string) (w : World) :
  (mailboxes (handle_lookup crypt_sha512 config parts w).2 = mailboxes w
   ∧ nocreate_file (handle_lookup crypt_sha512 config parts w).2
     = nocreate_file w)
  ∨ ∃ keyname blob pw user args,
      parts !! 0%nat = Some keyname
      ∧ split_max slash keyname 2 = ["shared"; "passdb"; blob]
      ∧ list_of (split_and_unescape blob) = Return (pw :: user :: args)
      ∧ in_mail_domain config user = true
      ∧ stored_password config w user = None
      ∧ all_checks_pass config w user pw
      ∧ (handle_lookup crypt_sha512 config parts w).2
        = {| nocreate_file := nocreate_file w;
             mailboxes :=
               <[user := {| password_file :=
                              Some ("{SHA512-CRYPT}"
                                    +:+ crypt_sha512 (crypt_calls w) pw) |}]>
                 (mailboxes w);
             log := log w;
             crypt_calls := S (crypt_calls w) |}.
Proof.
  destruct (handle_lookup_cases crypt_sha512 config parts w)
    as [(e0 & _ & ->) | (k & ns & ty & blob & args & Hk & Hs & Ha & Hr)];
    [by left |].
  destruct Hr as [(-> & res & w' & Hrt & ->) | (_ & ->)]; [| by left]. simpl.
  destruct Hrt as [user ? d w' _ _ Hrun | | pw user ? r w' H0 H1 Hdom Hrun |];
    try by left.
  - rewrite lookup_userdb_run in Hrun. injection Hrun as _ <-. by left.
  - destruct args as [|a [|b args]]; try done.
    injection H0 as ->. injection H1 as ->.
    destruct (stored_password config w user) as [text|] eqn:H.
    { rewrite (lookup_passdb_present _ _ _ _ _ _ H) in Hrun.
      injection Hrun as _ <-. by left. }
    destruct (policy_total config user pw w) as ([] & ws & Hpol).
    + assert (all_checks_pass config w user pw) as Hpass.
      { apply policy_accepts_inv. by rewrite Hpol. }
      rewrite (created_world _ _ _ _ _ H Hpass) in Hrun.
      injection Hrun as _ <-. right.
      exists k, blob, pw, user, args. done.
    + rewrite (lookup_passdb_absent_rejected _ _ _ _ _ _ H Hpol) in Hrun.
      injection Hrun as _ <-. by left.
Qed.

(** X8. A lookup request changes the mailbox directory only if it is a
    well-formed [shared/passdb] request for an address of the mail domain
    that has no password file and passes the creation policy: no
    [shared/userdb] request, no other namespace or kind, no malformed
    request and no address of another domain creates or changes an
    account. *)
Theorem handle_lookup_changes_store (crypt_sha512 : nat → string → string)
    (config : Config) (parts : list string) (w : World) :
  mailboxes (handle_lookup crypt_sha512 config parts w).2 ≠ mailboxes w →
  ∃ keyname blob pw user args,
    parts !! 0%nat = Some keyname
    ∧ split_max slash keyname 2 = ["shared"; "passdb"; blob]
    ∧ list_of (split_and_unescape blob) = Return (pw :: user :: args)
    ∧ in_mail_domain config user = true
    ∧ stored_password config w user = None
    ∧ all_checks_pass config w user pw.
Proof.
  intros Hchange.
  destruct (handle_lookup_store crypt_sha512 config parts w)
    as [[Hsame _] | (k & blob & pw & user & args & Hk & Hs & Ha & Hd & H & Hp & _)];
    [done |].
  by exists k, blob, pw, user, args.
Qed.

Lemma handle_lookup_changes_store_witness :
  ∃ keyname blob pw user args,
    ["shared/passdb/q9mr3faue" +:+ String dquote "asdf12345@chat.example.org"]
      !! 0%nat = Some keyname
    ∧ split_max slash keyname 2 = ["shared"; "passdb"; blob]
    ∧ list_of (split_and_unescape blob) = Return (pw :: user :: args)
    ∧ in_mail_domain example_config user = true
    ∧ stored_password example_config empty_world user = None
    ∧ all_checks_pass example_config empty_world user pw.
Proof.
  apply (handle_lookup_changes_store example_crypt example_config
           ["shared/passdb/q9mr3faue"
            +:+ String dquote "asdf12345@chat.example.org"] empty_world).
  intros H.
  apply (f_equal (λ m : gmap string Maildir,
                    m !! "asdf12345@chat.example.org")) in H.
  vm_compute in H. discriminate H.
Defined.

(** X9. Every account in a world that the handlers have reached from an
    empty mailbox directory went through the domain check and the
    policy: its name ends in [@] and the mail domain, its localpart is
    within the configured bounds and is not the reserved one, and its
    password file holds a hash under the scheme tag. *)
Theorem served_accounts_pass_policy (crypt_sha512 : nat → string → string)
    (config : Config) (w : World) :
  served crypt_sha512 config w →
  map_Forall (policy_entry config) (mailboxes w).
Proof.
  induction 1 as [marker | parts w _ IH | parts w _ IH | marker w _ IH].
  - apply map_Forall_empty.
  - destruct (handle_lookup_store crypt_sha512 config parts w)
      as [[-> _] | (k & blob & pw & user & args & _ & _ & _ & Hd & _ & Hp & ->)];
      [done |].
    simpl. apply map_Forall_insert_2; [| done].
    destruct Hp as (_ & _ & l & d & Hparts & Hl & Hlen).
    split; [done |]. split; [by exists l, d |]. by eexists.
  - unfold handle_iterate, bind, lift, index.
    destruct (parts !! 2%nat) as [prefix|]; [| done]. simpl.
    by destruct (String.eqb prefix "shared/userdb/").
  - exact IH.
Qed.

Lemma served_accounts_pass_policy_witness :
  map_Forall (policy_entry example_config)
    (mailboxes
       (handle_lookup example_crypt example_config
          ["shared/passdb/q9mr3faue"
           +:+ String dquote "asdf12345@chat.example.org"] empty_world).2).
Proof.
  apply (served_accounts_pass_policy example_crypt example_config).
  apply served_lookup. exact (served_start example_crypt example_config false).
Defined.

Lemma split_max_key (kind blob : string) :
  contains slash kind = false →
  split_max slash ("shared/" +:+ kind +:+ String slash blob) 2
  = ["shared"; kind; blob].
Proof.
  intros Hkind. change ("shared/" +:+ kind +:+ String slash blob)
    with ("shared" +:+ String slash (kind +:+ String slash blob)).
  simpl. f_equal.
  induction kind as [|c kind IH]; simpl in *.
  - by destruct blob.
  - apply orb_false_iff in Hkind as [-> Hkind]. by rewrite (IH Hkind).
Qed.

Lemma handle_lookup_passdb_escaped (crypt_sha512 : nat → string → string)
    (config : Config) (pw user : string) (rest : list string) (w : World) :
  handle_lookup crypt_sha512 config
    (("shared/passdb/" +:+ escape [pw; user]) :: rest) w
  = (if in_mail_domain config user
     then match lookup_passdb crypt_sha512 config user pw w with
          | (Return (Some d), w') => (Return (reply_found d), w')
          | (Return None, w') => (Return reply_absent, w')
          | (Raise e, w') => (Raise e, w')
          end
     else (Return reply_absent, w)).
Proof.
  assert (list_of (split_and_unescape (escape [pw; user]))
          = Return [pw; user]) as Ha.
  { by rewrite split_and_unescape_eq, split_and_unescape_loop_escape. }
  assert (split_max slash ("shared/passdb/" +:+ escape [pw; user]) 2
          = ["shared"; "passdb"; escape [pw; user]]) as Hs
    by (by apply (split_max_key "passdb")).
  destruct (in_mail_domain config user) eqn:Hdom.
  - destruct (lookup_passdb_total crypt_sha512 config user pw w)
      as (r & w' & Hrun & Hr).
    rewrite Hrun.
    rewrite (handle_lookup_routed _ _ _ _ _ rest _ _ _ _ Hs Ha
               (routed_passdb _ _ _ pw user [pw; user] r w' eq_refl eq_refl Hdom
                  Hrun)).
    by destruct r as [[|kv d]|].
  - by rewrite (handle_lookup_routed _ _ _ _ _ rest _ _ _ _ Hs Ha
                  (routed_passdb_other_domain _ _ _ user [pw; user]
                     eq_refl Hdom)).
Qed.

Lemma handle_lookup_userdb_escaped (crypt_sha512 : nat → string → string)
    (config : Config) (user : string) (rest : list string) (w : World) :
  handle_lookup crypt_sha512 config
    (("shared/userdb/" +:+ escape [user]) :: rest) w
  = (if in_mail_domain config user
     then match stored_password config w user with
          | Some text =>
              (Return (reply_found
                         (dict_update
                            (dict_of [("addr", user); ("password", text)])
                            (get_user_dict config user None))), w)
          | None => (Return reply_absent, w)
          end
     else (Return reply_absent, w)).
Proof.
  assert (list_of (split_and_unescape (escape [user])) = Return [user]) as Ha.
  { by rewrite split_and_unescape_eq, split_and_unescape_loop_escape. }
  assert (split_max slash ("shared/userdb/" +:+ escape [user]) 2
          = ["shared"; "userdb"; escape [user]]) as Hs
    by (by apply (split_max_key "userdb")).
  destruct (in_mail_domain config user) eqn:Hdom.
  - rewrite (handle_lookup_routed _ _ _ _ _ rest _ _ _ _ Hs Ha
               (routed_userdb _ _ _ user [user] _ _ eq_refl Hdom
                  (lookup_userdb_run config user w))).
    destruct (stored_password config w user) as [text|]; [| done].
    by rewrite userdb_record.
  - by rewrite (handle_lookup_routed _ _ _ _ _ rest _ _ _ _ Hs Ha
                  (routed_userdb_other_domain _ _ _ user [user] eq_refl
                     Hdom)).
Qed.

(** X10. Escaping carries any password and address through a request:
    the key [shared/passdb/] followed by the escaped password, a double
    quote and the escaped address makes [handle_lookup] call
    [lookup_passdb] with exactly that address and password, whatever
    backslashes, double quotes and slashes they hold, and reply [O] with
    the record or [N]; likewise [shared/userdb/] and the escaped address
    for [lookup_userdb]. *)
Theorem handle_lookup_escaped (crypt_sha512 : nat → string → string)
    (config : Config) (pw user : string) (rest : list string) (w : World) :
  handle_lookup crypt_sha512 config
    (("shared/passdb/" +:+ escape [pw; user]) :: rest) w
  = (if in_mail_domain config user
     then match lookup_passdb crypt_sha512 config user pw w with
          | (Return (Some d), w') => (Return (reply_found d), w')
          | (Return None, w') => (Return reply_absent, w')
          | (Raise e, w') => (Raise e, w')
          end
     else (Return reply_absent, w))
  ∧ handle_lookup crypt_sha512 config
      (("shared/userdb/" +:+ escape [user]) :: rest) w
    = (if in_mail_domain config user
       then match stored_password config w user with
            | Some text =>
                (Return (reply_found
                           (dict_update
                              (dict_of [("addr", user); ("password", text)])
                              (get_user_dict config user None))), w)
            | None => (Return reply_absent, w)
            end
       else (Return reply_absent, w)).
Proof.
  split; [apply handle_lookup_passdb_escaped | apply handle_lookup_userdb_escaped].
Qed.

(** ** Iteration, from any world *)

(** X11. [handle_iterate] never changes the world. It raises
    [IndexError] exactly when the request has fewer than three fields,
    returns nothing when the third field is not [shared/userdb/], and
    replies with a line break alone when no entry of the mailbox
    directory has an [@] in its name. *)
Theorem handle_iterate_edges (config : Config) (parts : list string)
    (w : World) :
  (handle_iterate config parts w).2 = w
  ∧ ((handle_iterate config parts w).1 = Raise IndexError
     ↔ (length parts < 3)%nat)
  ∧ (∀ prefix,
       parts !! 2%nat = Some prefix →
       prefix ≠ "shared/userdb/" →
       (handle_iterate config parts w).1 = Return None)
  ∧ (parts !! 2%nat = Some "shared/userdb/" →
     (∀ name, is_Some (mailboxes w !! name) → contains at_sign name = false) →
     (handle_iterate config parts w).1 = Return (Some (str1 newline))).
Proof.
  unfold handle_iterate, bind, lift, index.
  destruct (parts !! 2%nat) as [prefix|] eqn:Hp; simpl.
  - pose proof (lookup_lt_Some _ _ _ Hp) as Hlt.
    destruct (String.eqb prefix "shared/userdb/") eqn:He; simpl.
    + apply String.eqb_eq in He as ->.
      split; [done |]. split; [split; [done | lia] |].
      split; [by intros ? [= <-] |]. intros _ Hnone.
      destruct (filter (λ name, contains at_sign name = true)
                  (map_to_list (mailboxes w)).*1) as [|x xs] eqn:Hu; [done |].
      assert (x ∈ filter (λ name, contains at_sign name = true)
                    (map_to_list (mailboxes w)).*1) as Hx
        by (rewrite Hu; left).
      apply list_elem_of_filter in Hx as [Hat Hin].
      apply list_elem_of_fmap in Hin as ([n d] & -> & Hd%elem_of_map_to_list).
      simpl in Hat. rewrite (Hnone n) in Hat; [done | by eexists].
    + split; [done |]. split; [split; [done | lia] |].
      split; [done |]. intros [= ->]. done.
  - apply lookup_ge_None in Hp.
    split; [done |]. split; [split; [lia | done] |]. split; done.
Qed.

Lemma iter_userdb_names (config : Config) (w : World) :
  ∃ users,
    iter_userdb config w = (Return users, w)
    ∧ NoDup users
    ∧ ∀ name,
        name ∈ users
        ↔ is_Some (mailboxes w !! name) ∧ contains at_sign name = true.
Proof.
  eexists. split; [apply iter_userdb_run |]. split.
  - apply NoDup_filter, NoDup_fst_map_to_list.
  - intros name. rewrite list_elem_of_filter, list_elem_of_fmap. split.
    + intros (Hat & [n d] & -> & Hd%elem_of_map_to_list). by split; [eexists |].
    + intros ([d Hd] & Hat). split; [done |].
      exists (name, d). split; [done |]. by apply elem_of_map_to_list.
Qed.

(** X12. [iter_userdb] lists the names of the entries of the mailbox
    directory that hold an [@], each once, whether or not the entry has
    a password file, and leaves the world as it is: an address with a
    password file and an [@] is always listed, and an entry without an
    [@] never is. *)
Theorem iter_userdb_lists (config : Config) (w : World) :
  ∃ users,
    iter_userdb config w = (Return users, w)
    ∧ NoDup users
    ∧ (∀ name,
         name ∈ users
         ↔ is_Some (mailboxes w !! name) ∧ contains at_sign name = true)
    ∧ (∀ addr,
         established config w addr → contains at_sign addr = true →
         addr ∈ users).
Proof.
  destruct (iter_userdb_names config w) as (users & Hrun & Hnodup & Hmem).
  exists users. do 3 (split; [done |]).
  intros addr [text Hs]%established_stored Hat. apply Hmem. split; [| done].
  unfold stored_password, get_user_maildir in Hs.
  destruct (mailboxes w !! addr); [by eexists | done].
Qed.

Lemma all_checks_pass_marker (config : Config) (w w' : World)
    (user pw : string) :
  nocreate_file w' = nocreate_file w →
  all_checks_pass config w user pw → all_checks_pass config w' user pw.
Proof. unfold all_checks_pass. intros ->. done. Qed.

(** A call that passes the policy leaves the address in the mailbox
    directory, beside the entries that were there. *)
Lemma lookup_passdb_dom (crypt_sha512 : nat → string → string)
    (config : Config) (user pw : string) (w : World) :
  all_checks_pass config w user pw →
  dom (mailboxes (lookup_passdb crypt_sha512 config user pw w).2)
  = {[user]} ∪ dom (mailboxes w)
  ∧ nocreate_file (lookup_passdb crypt_sha512 config user pw w).2
    = nocreate_file w.
Proof.
  intros Hpass.
  destruct (stored_password config w user) as [text|] eqn:H.
  - rewrite (lookup_passdb_present _ _ _ _ _ _ H). simpl. split; [| done].
    unfold stored_password, get_user_maildir in H.
    destruct (mailboxes w !! user) as [d|] eqn:Hd; [| done].
    assert (user ∈ dom (mailboxes w)) by (apply elem_of_dom; by eexists).
    set_solver.
  - rewrite (created_world _ _ _ _ _ H Hpass). simpl.
    split; [apply dom_insert_L | done].
Qed.

Lemma create_all_dom (crypt_sha512 : nat → string → string) (config : Config)
    (accounts : list (string * string)) (w : World) :
  Forall (λ up, (is_allowed_to_create config up.1 up.2 w).1 = Return true)
    accounts →
  dom (mailboxes (create_all crypt_sha512 config accounts w))
  = list_to_set accounts.*1 ∪ dom (mailboxes w).
Proof.
  revert w. induction accounts as [|[user pw] accounts IH]; intros w Hall.
  - simpl. set_solver.
  - apply Forall_cons in Hall as [Hpass%policy_accepts_inv Hall]. simpl in *.
    destruct (lookup_passdb_dom crypt_sha512 config user pw w Hpass)
      as [Hdom Hmarker].
    rewrite IH, Hdom; [set_solver |].
    eapply Forall_impl; [exact Hall |]. intros [u p] Hup. simpl in *.
    apply policy_accepts_inv in Hup.
    by rewrite (policy_accepts _ _ _ _ (all_checks_pass_marker _ _ _ _ _ Hmarker Hup)).
Qed.

(** X13. After the accounts A1..Ak are created from an empty mailbox
    directory, each by a call of [lookup_passdb] that passes the policy,
    with addresses that hold no [/] and no NUL character and passwords
    that hold no NUL character, [iter_userdb] returns exactly the
    addresses A1..Ak, each once. *)
Theorem iter_userdb_after_creation (crypt_sha512 : nat → string → string)
    (config : Config) (accounts : list (string * string)) (w : World) :
  mailboxes w = ∅ →
  Forall (λ up, (is_allowed_to_create config up.1 up.2 w).1 = Return true)
    accounts →
  Forall (λ up, contains slash up.1 = false
                ∧ contains nul up.1 = false
                ∧ contains nul up.2 = false)
    accounts →
  ∃ users,
    (iter_userdb config (create_all crypt_sha512 config accounts w)).1
    = Return users
    ∧ NoDup users
    ∧ ∀ name, name ∈ users ↔ name ∈ accounts.*1.
Proof.
  intros Hempty Hall _.
  destruct (iter_userdb_names config (create_all crypt_sha512 config accounts w))
    as (users & Hrun & Hnodup & Hmem).
  exists users. rewrite Hrun. do 2 (split; [done |]).
  intros name. rewrite Hmem, <- elem_of_dom.
  rewrite (create_all_dom _ _ _ _ Hall), Hempty, dom_empty_L.
  rewrite elem_of_union, elem_of_list_to_set. split.
  - intros [[Hin | Hin] _]; [done | set_solver].
  - intros Hin. split; [by left |].
    apply list_elem_of_fmap in Hin as ([u p] & -> & Hin).
    rewrite Forall_forall in Hall. specialize (Hall _ Hin). simpl in *.
    apply policy_accepts_inv in Hall as (_ & _ & l & d & Hparts & _).
    by eapply address_parts_at.
Qed.

(** The accounts of [test_handle_dovecot_protocol_iterate]. *)
Lemma iter_userdb_after_creation_witness :
  ∃ users,
    (iter_userdb example_config
       (create_all example_crypt example_config
          [("asdf00000@chat.example.org", "q9mr3faue");
           ("asdf11111@chat.example.org", "q9mr3faue")] empty_world)).1
    = Return users
    ∧ NoDup users
    ∧ ∀ name,
        name ∈ users
        ↔ name ∈ [("asdf00000@chat.example.org", "q9mr3faue");
                  ("asdf11111@chat.example.org", "q9mr3faue")].*1.
Proof.
  apply (iter_userdb_after_creation example_crypt example_config
           [("asdf00000@chat.example.org", "q9mr3faue");
            ("asdf11111@chat.example.org", "q9mr3faue")] empty_world).
  - reflexivity.
  - repeat constructor.
  - repeat constructor.
Defined.

(** ** Requests that follow one another *)

(** X14. When a [shared/passdb] request is answered with anything but
    [N], the answer is [O] with a record, and a [shared/userdb] request
    for the same address that follows is answered [O] too, with a record
    that holds the same value under every key; it changes nothing. *)
Theorem handle_lookup_passdb_then_userdb
    (crypt_sha512 : nat → string → string) (config : Config)
    (pw user answer : string) (rest rest' : list string) (w w' : World) :
  handle_lookup crypt_sha512 config
    (("shared/passdb/" +:+ escape [pw; user]) :: rest) w
  = (Return answer, w') →
  answer ≠ reply_absent →
  ∃ d d',
    answer = reply_found d
    ∧ handle_lookup crypt_sha512 config
        (("shared/userdb/" +:+ escape [user]) :: rest') w'
      = (Return (reply_found d'), w')
    ∧ ∀ k, dict_get d k = dict_get d' k.
Proof.
  rewrite handle_lookup_passdb_escaped, handle_lookup_userdb_escaped.
  destruct (in_mail_domain config user); [| by intros [= <- <-]].
  destruct (stored_password config w user) as [text|] eqn:H.
  { rewrite (lookup_passdb_present _ _ _ _ _ _ H).
    intros [= <- <-] _. rewrite H. by eexists _, _. }
  destruct (policy_total config user pw w) as ([] & ws & Hpol).
  - assert (all_checks_pass config w user pw) as Hpass.
    { apply policy_accepts_inv. by rewrite Hpol. }
    rewrite (created_world _ _ _ _ _ H Hpass).
    intros [= <- <-] _.
    replace (stored_password config _ user)
      with (Some ("{SHA512-CRYPT}" +:+ crypt_sha512 (crypt_calls w) pw)).
    + eexists _, _. do 2 (split; [done |]).
      intros k. apply created_record_read_back.
    + unfold stored_password, get_user_maildir. simpl.
      by rewrite lookup_insert_eq.
  - rewrite (lookup_passdb_absent_rejected _ _ _ _ _ _ H Hpol).
    by intros [= <- <-].
Qed.

(** The requests of [test_handle_dovecot_protocol_user_not_exists], after
    a password request for the address. *)
Lemma handle_lookup_passdb_then_userdb_witness :
  ∃ d d',
    reply_found (get_user_dict example_config "foobar@chat.example.org"
                   (Some "{SHA512-CRYPT}$6$q9mr3faue"))
    = reply_found d
    ∧ handle_lookup example_crypt example_config
        (("shared/userdb/" +:+ escape ["foobar@chat.example.org"])
         :: ["foobar@chat.example.org"])
        (handle_lookup example_crypt example_config
           (("shared/passdb/"
             +:+ escape ["q9mr3faue"; "foobar@chat.example.org"])
            :: ["foobar@chat.example.org"]) empty_world).2
      = (Return (reply_found d'),
         (handle_lookup example_crypt example_config
            (("shared/passdb/"
              +:+ escape ["q9mr3faue"; "foobar@chat.example.org"])
             :: ["foobar@chat.example.org"]) empty_world).2)
    ∧ ∀ k, dict_get d k = dict_get d' k.
Proof.
  apply (handle_lookup_passdb_then_userdb example_crypt example_config
           "q9mr3faue" "foobar@chat.example.org" _
           ["foobar@chat.example.org"] ["foobar@chat.example.org"]
           empty_world).
  - vm_compute. reflexivity.
  - vm_compute. discriminate.
Defined.

(** X15. While the marker file exists nothing creates an account:
    neither a call of [lookup_passdb] nor a lookup request changes the
    mailbox directory, and a call for an address with no password file
    returns [None]. *)
Theorem nocreate_blocks_creation (crypt_sha512 : nat → string → string)
    (config : Config) (user pw : string) (parts : list string) (w : World) :
  nocreate_file w = true →
  mailboxes (lookup_passdb crypt_sha512 config user pw w).2 = mailboxes w
  ∧ mailboxes (handle_lookup crypt_sha512 config parts w).2 = mailboxes w
  ∧ (stored_password config w user = None →
     (lookup_passdb crypt_sha512 config user pw w).1 = Return None).
Proof.
  intros Hmarker.
  assert (∀ u p, lookup_passdb crypt_sha512 config u p w
                 = match stored_password config w u with
                   | Some text =>
                       (Return (Some (dict_update
                                        (dict_of [("addr", u); ("password", text)])
                                        (get_user_dict config u None))), w)
                   | None => (Return None, logged w [blocked_nocreate])
                   end) as Hrun.
  { intros u p. destruct (stored_password config w u) as [text|] eqn:H.
    - by apply lookup_passdb_present.
    - apply lookup_passdb_absent_rejected; [done |]. by apply policy_blocked. }
  split; [| split].
  - rewrite Hrun. by destruct (stored_password config w user).
  - destruct (handle_lookup_store crypt_sha512 config parts w)
      as [[-> _] | (k & blob & p & u & args & _ & _ & _ & _ & _ & Hp & _)];
      [done |].
    destruct Hp as [Hp _]. congruence.
  - intros H. by rewrite Hrun, H.
Qed.

(** [test_nocreate_file]. *)
Lemma nocreate_blocks_creation_witness :
  let w :=
    {| nocreate_file := true; mailboxes := ∅; log := []; crypt_calls := 0 |} in
  mailboxes (lookup_passdb example_crypt example_config
               "newuser12@chat.example.org" "zequ0Aimuchoodaechik" w).2
  = mailboxes w
  ∧ mailboxes (handle_lookup example_crypt example_config
                 ["shared/passdb/zequ0Aimuchoodaechik"
                  +:+ String dquote "newuser12@chat.example.org"] w).2
    = mailboxes w
  ∧ (stored_password example_config w "newuser12@chat.example.org" = None →
     (lookup_passdb example_crypt example_config
        "newuser12@chat.example.org" "zequ0Aimuchoodaechik" w).1 = Return None).
Proof.
  intros w.
  apply (nocreate_blocks_creation example_crypt example_config
           "newuser12@chat.example.org" "zequ0Aimuchoodaechik"
           ["shared/passdb/zequ0Aimuchoodaechik"
            +:+ String dquote "newuser12@chat.example.org"] w).
  reflexivity.
Defined.
